(** * DS_Vis_Acc_Maternity: the data pipeline of [process_data.py]

    A shallow embedding of the table transformations of [src/process_data.py]
    (name normalisation, row filter, rate calculation, population join,
    region ordering, time-series assembly) and the properties of them that
    the specification states.

    Data frames are lists of records, one record per row, with one field per
    column the code reads.  Numbers are IEEE-754 binary64 values
    ([spec_float] at precision 53), as pandas holds them.  Python exceptions
    are the [inl] side of a sum. *)

From Stdlib Require Import ZArith Ascii String SpecFloat.
From stdpp Require Import base option list sorting strings gmap.

(* ===================================================================== *)
(** ** Numbers: float64 *)
(* ===================================================================== *)

Module F64.

Definition prec : Z := 53.
Definition emax : Z := 1024.

Definition add : spec_float -> spec_float -> spec_float := SFadd prec emax.
Definition mul : spec_float -> spec_float -> spec_float := SFmul prec emax.
Definition div : spec_float -> spec_float -> spec_float := SFdiv prec emax.

(** The float64 nearest to an integer (exact below 2^53). *)
Definition of_Z (z : Z) : spec_float := binary_normalize prec emax z 0 false.

Definition nan : spec_float := S754_nan.
Definition zero : spec_float := S754_zero false.

(** [pd.isna] on a number. *)
Definition isna (x : spec_float) : bool :=
  match x with S754_nan => true | _ => false end.



(** [Series.sum] / [DataFrame.sum(axis=1)] with the default [skipna=True]:
    missing cells are replaced by 0 and the row is reduced with [+] from
    its first cell; an empty selection sums to 0. *)
Definition fillna0 (x : spec_float) : spec_float := if isna x then zero else x.

Definition sum (xs : list spec_float) : spec_float :=
  match xs with
  | [] => zero
  | x :: xs' => fold_left add (map fillna0 xs') (fillna0 x)
  end.

End F64.

Abbreviation float := spec_float.

(* ===================================================================== *)
(** ** Exceptions *)
(* ===================================================================== *)

Inductive exn : Type :=
| KeyError (key : string)      (* a dict or column lookup that failed: names the key *)
| ValueError (msg : string)
| NameError (name : string).

Definition result (A : Type) : Type := exn + A.

Definition ok {A} (a : A) : result A := inr a.
Definition raise {A} (e : exn) : result A := inl e.

Definition bind {A B} (m : result A) (k : A -> result B) : result B :=
  match m with
  | inl e => inl e
  | inr a => k a
  end.

Notation "'let*' x ':=' m 'in' k" := (bind m (fun x => k))
  (at level 10, x name, m at level 100, k at level 200, only parsing).

(** [d[k]] on a Python dict. *)
Definition getitem {V} (d : gmap string V) (k : string) : result V :=
  match d !! k with
  | Some v => ok v
  | None => raise (KeyError k)
  end.

(* ===================================================================== *)
(** ** Strings: literal [re.search] and [re.sub] *)
(* ===================================================================== *)

Module Re.

(** [s.startswith(p)]. *)
Fixpoint startswith (p s : string) : bool :=
  match p with
  | EmptyString => true
  | String a p' =>
      match s with
      | EmptyString => false
      | String b s' => Ascii.eqb a b && startswith p' s'
      end
  end.

(** [re.search(p, s) is not None], for a pattern [p] without
    metacharacters: [p] occurs in [s]. *)
Fixpoint search (p s : string) : bool :=
  startswith p s ||
  match s with
  | EmptyString => false
  | String _ s' => search p s'
  end.

Fixpoint drop (n : nat) (s : string) : string :=
  match n with
  | O => s
  | S n' => match s with
            | EmptyString => EmptyString
            | String _ s' => drop n' s'
            end
  end.

(** [re.sub(p, v, s)] for a non-empty literal [p] and a replacement [v]
    without backslashes: scan left to right, replace each match and
    resume after it (matches do not overlap).  [skip] counts the
    characters of the current match still to be consumed. *)
Fixpoint sub_from (p v : string) (skip : nat) (s : string) : string :=
  match s with
  | EmptyString => EmptyString
  | String c s' =>
      match skip with
      | S n => sub_from p v n s'
      | O => if startswith p s
             then v +:+ sub_from p v (String.length p - 1) s'
             else String c (sub_from p v 0 s')
      end
  end.

Definition sub (p v s : string) : string := sub_from p v 0 s.

(** [Series.replace(d, regex=True)] on one string cell.  pandas walks the
    dict in insertion order; for each pair it substitutes in the cells
    that the pattern matched {e in the original column} ([replace_list]
    computes the masks on the values it was given), working on the
    column as rewritten so far. *)
Definition replace_step (orig : string) (cur : string) (kv : string * string) : string :=
  if search kv.1 orig then sub kv.1 kv.2 cur else cur.

Definition replace_from (orig : string) (d : list (string * string)) (cur : string) : string :=
  fold_left (replace_step orig) d cur.

Definition replace_regex (d : list (string * string)) (s : string) : string :=
  replace_from s d s.

(** A sufficient, computable condition on a dictionary under which one
    pass of [replace_regex] leaves no key to match: [compat a b] says
    that [a] and [b] agree wherever both have a character;
    [no_new_match K B v] excludes that replacing [B] by [v] completes an
    occurrence of [K] that was not there before. *)
Fixpoint compat (a b : string) : bool :=
  match a, b with
  | String x a', String y b' => Ascii.eqb x y && compat a' b'
  | _, _ => true
  end.

Fixpoint all_tails (f : string -> bool) (s : string) : bool :=
  f s && match s with
         | EmptyString => true
         | String _ s' => all_tails f s'
         end.

Fixpoint all_nonempty_tails (f : string -> bool) (s : string) : bool :=
  match s with
  | EmptyString => true
  | String _ s' => f s && all_nonempty_tails f s'
  end.

Definition no_new_match (K B v : string) : bool :=
  negb (String.eqb B "")
  && all_tails (fun K' => startswith K' B || negb (compat K' v)) K
  && all_nonempty_tails (fun v' => negb (compat K v')) v.

Definition dict_ok (d : list (string * string)) : bool :=
  forallb (fun kv => forallb (fun bv => no_new_match kv.1 bv.1 bv.2) d) d.

(** [Series.replace(d)] without [regex]: a cell equal to a key becomes
    the key's value, any other cell is kept. *)
Fixpoint replace_exact (d : list (string * string)) (s : string) : string :=
  match d with
  | [] => s
  | (k, v) :: d' => if String.eqb s k then v else replace_exact d' s
  end.

End Re.

(* ===================================================================== *)
(** ** Tables *)
(* ===================================================================== *)

(** One row of the statistics file.  [Org_Code] .. [Value] are the columns
    of the CSV; [year] is the column [return_data_for_time_series] adds and
    [latitude], [longitude] the ones [join_lat_lon_data] adds: [None] while
    the column does not exist, [Some nan] for a row the left join left
    unmatched. *)
Record Row : Type := mkRow {
  Org_Code : string;
  Org_Name : string;
  Org_Level : string;
  Dimension : string;
  Measure : string;
  Value : float;
  year : option string;
  latitude : option float;
  longitude : option float;
}.

Definition set_Org_Name (f : string -> string) (r : Row) : Row :=
  mkRow (Org_Code r) (f (Org_Name r)) (Org_Level r) (Dimension r) (Measure r)
        (Value r) (year r) (latitude r) (longitude r).

Definition set_Dimension (f : string -> string) (r : Row) : Row :=
  mkRow (Org_Code r) (Org_Name r) (Org_Level r) (f (Dimension r)) (Measure r)
        (Value r) (year r) (latitude r) (longitude r).

Definition set_Measure (f : string -> string) (r : Row) : Row :=
  mkRow (Org_Code r) (Org_Name r) (Org_Level r) (Dimension r) (f (Measure r))
        (Value r) (year r) (latitude r) (longitude r).

Definition set_year (y : string) (r : Row) : Row :=
  mkRow (Org_Code r) (Org_Name r) (Org_Level r) (Dimension r) (Measure r)
        (Value r) (Some y) (latitude r) (longitude r).

Definition set_lat_lon (lat lon : float) (r : Row) : Row :=
  mkRow (Org_Code r) (Org_Name r) (Org_Level r) (Dimension r) (Measure r)
        (Value r) (year r) (Some lat) (Some lon).

(** A row of [data/locations.csv]. *)
Record Location : Type := mkLocation {
  org_code : string;
  loc_latitude : float;
  loc_longitude : float;
}.

(** A row of a population sheet, reduced to the two grouping-key columns
    ([config.pop_source[year][2]]: region name, region code) and [Total]. *)
Record PopRow : Type := mkPopRow {
  pop_name : string;
  pop_code : string;
  Total : float;
}.

(** The value of [measure_dict[org_level][dimension]]. *)
Record Roles : Type := mkRoles {
  numerator : list string;
  denominator : list string;
}.

(** The [config] module, which the pipeline imports and which is not part
    of the sources: taken as a parameter.  A file locator stands for the
    table the loader reads from it.  [data_source] is an ordered dict
    (its iteration order matters), kept as the list of its items. *)
Record Config : Type := mkConfig {
  data_source : list (string * list Row);
  pop_source : gmap string (list PopRow);
  special_dimensions : list string;
  region_order : gmap string Z;
  locations_csv : list Location;
}.

(** [x in xs] on a list of strings. *)
Definition str_in (x : string) (xs : list string) : bool :=
  existsb (String.eqb x) xs.

(** [d[k]] on the ordered dict. *)
Fixpoint getitem_items {V} (d : list (string * V)) (k : string) : result V :=
  match d with
  | [] => raise (KeyError k)
  | (k', v) :: d' => if String.eqb k k' then ok v else getitem_items d' k
  end.

(** Sorted distinct values, as pandas orders a pivot's index and columns
    and the groups of a [groupby]. *)
Fixpoint insert_uniq {A} (cmp : A -> A -> comparison) (x : A) (l : list A) : list A :=
  match l with
  | [] => [x]
  | y :: l' =>
      match cmp x y with
      | Lt => x :: l
      | Eq => l
      | Gt => y :: insert_uniq cmp x l'
      end
  end.

Definition sorted_unique {A} (cmp : A -> A -> comparison) (l : list A) : list A :=
  fold_right (insert_uniq cmp) [] l.

Definition compare_pair (a b : string * string) : comparison :=
  match String.compare a.1 b.1 with
  | Eq => String.compare a.2 b.2
  | c => c
  end.

(** Structural equality of cells, as [drop_duplicates] compares them
    (missing equals missing). *)
Definition float_eqb (x y : float) : bool :=
  match x, y with
  | S754_zero a, S754_zero b => Bool.eqb a b
  | S754_infinity a, S754_infinity b => Bool.eqb a b
  | S754_nan, S754_nan => true
  | S754_finite a m e, S754_finite b m' e' => Bool.eqb a b && Pos.eqb m m' && Z.eqb e e'
  | _, _ => false
  end.

Definition opt_float_eqb (x y : option float) : bool :=
  match x, y with
  | Some a, Some b => float_eqb a b
  | None, None => true
  | _, _ => false
  end.

(* ===================================================================== *)
(** ** Name Normalizer: [map_org_name], [make_values_consistant] *)
(* ===================================================================== *)

Definition name_dict : list (string * string) :=
  [ ("LONDON COMMISSIONING REGION", "London");
    ("SOUTH WEST COMMISSIONING REGION", "South West");
    ("SOUTH EAST COMMISSIONING REGION", "South East");
    ("MIDLANDS COMMISSIONING REGION", "Midlands");
    ("EAST OF ENGLAND COMMISSIONING REGION", "East of England");
    ("NORTH WEST COMMISSIONING REGION", "North West");
    ("NORTH EAST AND YORKSHIRE COMMISSIONING REGION", "North East and Yorkshire");
    ("ALL SUBMITTERS", "All Submitters") ].

(** [df["Org_Name"] = df["Org_Name"].replace(name_dict, regex=True)] *)
Definition map_org_name (df : list Row) : list Row :=
  map (set_Org_Name (Re.replace_regex name_dict)) df.

Definition dimension_replace_dict : list (string * string) :=
  [ ("SmokingAtBooking", "SmokingStatusGroupBooking");
    ("MethodOfDelivery", "DeliveryMethodBabyGroup");
    ("FolicAcidStatusGroupBooking", "FolicAcidSupplement") ].

Definition measure_replace_dict : list (string * string) :=
  [ ("Missing Value / Value outside reporting parameters", "Missing value");
    ("Missing Value/Value outside reporting parameters", "Missing value");
    ("Missing value / Value outside reporting parameters", "Missing value") ].

Definition deprivation_replace_dict : list (string * string) :=
  [ ("2", "02"); ("3", "03"); ("4", "04"); ("5", "05");
    ("6", "06"); ("7", "07"); ("8", "08"); ("9", "09") ].

Definition make_values_consistant (df : list Row) : list Row :=
  let df := map (set_Dimension (Re.replace_exact dimension_replace_dict)) df in
  let df := map (set_Measure (Re.replace_exact measure_replace_dict)) df in
  map (fun r =>
         if String.eqb (Dimension r) "DeprivationDecileAtBooking"
         then set_Measure (Re.replace_exact deprivation_replace_dict) r
         else r) df.

(* ===================================================================== *)
(** ** Row Filter: [filter_for_measure_and_level] *)
(* ===================================================================== *)

Definition filter_for_measure_and_level
    (df : list Row) (dimension org_level : string) : list Row :=
  let df_filtered := List.filter (fun r => String.eqb (Org_Level r) org_level) df in
  let df_filtered := List.filter (fun r => String.eqb (Dimension r) dimension) df_filtered in
  df_filtered.

(* ===================================================================== *)
(** ** Geo Joiner: [join_lat_lon_data] *)
(* ===================================================================== *)

(** [pd.merge(df, df_lat_lon, left_on="Org_Code", right_on="org_code",
    how="left")]: every row once per matching location, in the reference
    table's order; once with missing coordinates when none matches. *)
Definition join_lat_lon_data (config : Config) (df : list Row) : list Row :=
  flat_map (fun r =>
    match List.filter (fun l => String.eqb (Org_Code r) (org_code l)) (locations_csv config) with
    | [] => [set_lat_lon F64.nan F64.nan r]
    | ls => map (fun l => set_lat_lon (loc_latitude l) (loc_longitude l) r) ls
    end) df.

(* ===================================================================== *)
(** ** Rate Calculator, ordinary path: [get_rates] *)
(* ===================================================================== *)

(** A row of the pivoted frame: the index value, one cell per measure
    column (in column order), and the columns added afterwards.
    [Percent] is [None] until [return_data_for_map] adds the column. *)
Record PivotRow : Type := mkPivotRow {
  pv_Org_Name : string;
  pv_cells : list (string * float);
  pv_Rate : float;
  pv_Percent : option float;
}.

Definition same_entry (a b : Row) : bool :=
  String.eqb (Org_Name a) (Org_Name b) && String.eqb (Measure a) (Measure b).

Fixpoint has_duplicate_entries (df : list Row) : bool :=
  match df with
  | [] => false
  | r :: df' => existsb (same_entry r) df' || has_duplicate_entries df'
  end.

(** The cell of the pivot at ([o], [m]): the row's [Value], missing when
    the table has no such row. *)
Definition pivot_cell (df : list Row) (o m : string) : float :=
  match List.find (fun r => String.eqb (Org_Name r) o && String.eqb (Measure r) m) df with
  | Some r => Value r
  | None => F64.nan
  end.

(** The pivoted frame: its measure columns and its rows (index value
    and one cell per column). *)
Record Pivoted : Type := mkPivoted {
  pv_columns : list string;
  pv_rows : list (string * list (string * float));
}.

(** [df.pivot(columns="Measure", values="Value", index="Org_Name")
    .reset_index()]: refuses a table with two rows for one
    (organisation, measure); index and columns come out sorted. *)
Definition pivot (df : list Row) : result Pivoted :=
  if has_duplicate_entries df
  then raise (ValueError "Index contains duplicate entries, cannot reshape")
  else
    let index := sorted_unique String.compare (map Org_Name df) in
    let columns := sorted_unique String.compare (map Measure df) in
    ok (mkPivoted columns
          (map (fun o => (o, map (fun m => (m, pivot_cell df o m)) columns)) index)).

(** [row[m]] for a measure column. *)
Fixpoint cell (cells : list (string * float)) (m : string) : result float :=
  match cells with
  | [] => raise (KeyError m)
  | (m', x) :: cells' => if String.eqb m m' then ok x else cell cells' m
  end.

Fixpoint select (cells : list (string * float)) (measures : list string) : result (list float) :=
  match measures with
  | [] => ok []
  | m :: ms =>
      let* x := cell cells m in
      let* xs := select cells ms in
      ok (x :: xs)
  end.

Fixpoint select_rows (rows : list (string * list (string * float))) (measures : list string)
    : result (list (list float)) :=
  match rows with
  | [] => ok []
  | (_, cells) :: rows' =>
      let* xs := select cells measures in
      let* xss := select_rows rows' measures in
      ok (xs :: xss)
  end.

(** [df_pivoted[measures]]: the listed measure columns of every row, in
    the order listed; a name that is not a column of the frame is a
    [KeyError], also when the frame has no rows. *)
Definition getitem_columns (df_pivoted : Pivoted) (measures : list string)
    : result (list (list float)) :=
  match List.find (fun m => negb (str_in m (pv_columns df_pivoted))) measures with
  | Some m => raise (KeyError m)
  | None => select_rows (pv_rows df_pivoted) measures
  end.

Definition get_rates (df : list Row) (dimension : string)
    (measure_dict : gmap string (gmap string Roles)) (org_level : string)
    : result (list PivotRow) :=
  let* df_pivoted := pivot df in
  let* by_level := getitem measure_dict org_level in
  let* roles := getitem by_level dimension in
  let* numerator_cols := getitem_columns df_pivoted (numerator roles) in
  let numerator_sum := map F64.sum numerator_cols in
  let* denominator_cols := getitem_columns df_pivoted (denominator roles) in
  let denominator_sum := map F64.sum denominator_cols in
  ok (zip_with (fun row nd => mkPivotRow row.1 row.2 (F64.div nd.1 nd.2) None)
               (pv_rows df_pivoted) (zip numerator_sum denominator_sum)).

(* ===================================================================== *)
(** ** Rate Calculator, special path: [join_pop_data] *)
(* ===================================================================== *)

(** A row of the frame joined with the aggregated population table:
    the left row, the matching aggregated row ([None]: no match, the
    right-hand columns are missing) and the [Rate] column. *)
Record JoinedRow : Type := mkJoinedRow {
  j_row : Row;
  j_pop : option PopRow;
  j_Rate : float;
}.

(** [joined_df["Total"]] *)
Definition j_Total (pop : option PopRow) : float :=
  match pop with
  | Some p => Total p
  | None => F64.nan
  end.

(** [df_pop.groupby([name, code])["Total"].sum().reset_index()]: one row
    per distinct (name, code), in sorted key order, with the sum of the
    group's totals (missing ones skipped). *)
Definition groupby_sum (df_pop : list PopRow) : list PopRow :=
  map (fun key =>
         mkPopRow key.1 key.2
           (F64.sum (map Total
              (List.filter (fun p => String.eqb (pop_name p) key.1 && String.eqb (pop_code p) key.2)
                           df_pop))))
      (sorted_unique compare_pair (map (fun p => (pop_name p, pop_code p)) df_pop)).

Definition join_pop_data (config : Config) (df : list Row) (year : string)
    : result (list JoinedRow) :=
  let* df_pop := getitem (pop_source config) year in
  let df_pop_agg := groupby_sum df_pop in
  let joined_df :=
    flat_map (fun r =>
      match List.filter (fun p => String.eqb (Org_Name r) (pop_name p)) df_pop_agg with
      | [] => [(r, None)]
      | ps => map (fun p => (r, Some p)) ps
      end) df in
  ok (map (fun rp => mkJoinedRow rp.1 rp.2 (F64.div (Value rp.1) (j_Total rp.2))) joined_df).

(** [df["Rate"] = df["Rate"] * 1000] *)
Definition per_thousand (j : JoinedRow) : JoinedRow :=
  mkJoinedRow (j_row j) (j_pop j) (F64.mul (j_Rate j) (F64.of_Z 1000)).

(** [df_rates["Percent"] = df_rates["Rate"] * 100] *)
Definition add_Percent (p : PivotRow) : PivotRow :=
  mkPivotRow (pv_Org_Name p) (pv_cells p) (pv_Rate p)
             (Some (F64.mul (pv_Rate p) (F64.of_Z 100))).

(* ===================================================================== *)
(** ** Assembler: [return_data_for_map] and the chart variants *)
(* ===================================================================== *)

(** A row of [df_rates]: from the population join or from the pivot. *)
Inductive RatesRow : Type :=
| FromPop (j : JoinedRow)
| FromPivot (p : PivotRow).

Definition rates_Org_Name (r : RatesRow) : string :=
  match r with
  | FromPop j => Org_Name (j_row j)
  | FromPivot p => pv_Org_Name p
  end.

(** [r["Rate"]] *)
Definition rates_Rate (r : RatesRow) : float :=
  match r with
  | FromPop j => j_Rate j
  | FromPivot p => pv_Rate p
  end.

(** [r["Percent"]]: [None] when the frame has no such column. *)
Definition rates_Percent (r : RatesRow) : option float :=
  match r with
  | FromPop _ => None
  | FromPivot p => pv_Percent p
  end.

(** A row of the frame [return_data_for_map] returns: the rates row and
    the coordinates merged back in. *)
Record MapRow : Type := mkMapRow {
  m_rates : RatesRow;
  m_latitude : option float;
  m_longitude : option float;
}.

Definition geo_eqb (a b : string * option float * option float) : bool :=
  String.eqb a.1.1 b.1.1 && opt_float_eqb a.1.2 b.1.2 && opt_float_eqb a.2 b.2.

(** [DataFrame.drop_duplicates()]: the first of equal rows is kept. *)
Fixpoint drop_duplicates_from {A} (eqb : A -> A -> bool) (seen l : list A) : list A :=
  match l with
  | [] => []
  | x :: l' =>
      if existsb (eqb x) seen then drop_duplicates_from eqb seen l'
      else x :: drop_duplicates_from eqb (x :: seen) l'
  end.

Definition drop_duplicates {A} (eqb : A -> A -> bool) (l : list A) : list A :=
  drop_duplicates_from eqb [] l.

(** [df_rates.merge(geo, on="Org_Name", how="left", suffixes=("", "_"))] *)
Definition merge_lat_lon (df_rates : list RatesRow)
    (geo : list (string * option float * option float)) : list MapRow :=
  flat_map (fun r =>
    match List.filter (fun g => String.eqb (rates_Org_Name r) g.1.1) geo with
    | [] => [mkMapRow r (Some F64.nan) (Some F64.nan)]
    | gs => map (fun g => mkMapRow r g.1.2 g.2) gs
    end) df_rates.

Section Sorting.

(** [numpy.argsort(kind="quicksort")], the sort [sort_values] uses when no
    [kind] is given: the positions of the keys in ascending key order. *)
Variable argsort : list Z -> list nat.

(** pandas' [nargsort] with [na_position="last"]: the positions of the
    rows that have a key, permuted by [argsort] of their keys, followed by
    the positions of the rows without one, in increasing order. *)
Definition nargsort (items : list (option Z)) : list nat :=
  let idx := seq 0 (length items) in
  let non_nan_idx := List.filter (fun i => bool_decide (is_Some (items !!! i))) idx in
  let nan_idx := List.filter (fun i => negb (bool_decide (is_Some (items !!! i)))) idx in
  let non_nans := omap id items in
  omap (fun j => non_nan_idx !! j) (argsort non_nans) ++ nan_idx.

(** [df.sort_values(by, key=lambda col: col.map(rank), ignore_index=True)] *)
Definition sort_values {A} (key : A -> option Z) (df : list A) : list A :=
  omap (fun i => df !! i) (nargsort (map key df)).

Definition return_data_for_map (config : Config) (dimension org_level : string)
    (measure_dict : gmap string (gmap string Roles)) (year : string)
    : result (list MapRow) :=
  let* df := getitem_items (data_source config) year in
  let df := map_org_name df in
  let df := make_values_consistant df in
  let df := join_lat_lon_data config df in
  let df := filter_for_measure_and_level df dimension org_level in
  let* df_rates :=
    if str_in dimension (special_dimensions config) then
      let* df_rates := join_pop_data config df year in
      ok (map (fun j => FromPop (per_thousand j)) df_rates)
    else
      let* df_rates := get_rates df dimension measure_dict org_level in
      ok (map (fun p => FromPivot (add_Percent p)) df_rates) in
  let df :=
    merge_lat_lon df_rates
      (drop_duplicates geo_eqb (map (fun r => (Org_Name r, latitude r, longitude r)) df)) in
  ok (sort_values (fun r => region_order config !! rates_Org_Name (m_rates r)) df).

End Sorting.

Definition return_data_for_bar_chart (config : Config)
    (dimension org_level location year : string) : result (list Row) :=
  let* df := getitem_items (data_source config) year in
  let df := map_org_name df in
  let df := make_values_consistant df in
  let df := filter_for_measure_and_level df dimension org_level in
  ok (List.filter (fun r => String.eqb (Org_Name r) location) df).

Definition return_data_for_special_bar_chart (config : Config)
    (dimension year : string) : result (list JoinedRow) :=
  let* df := getitem_items (data_source config) year in
  let df := map_org_name df in
  let df := make_values_consistant df in
  let df := filter_for_measure_and_level df dimension "NHS England (Region)" in
  let* df := join_pop_data config df year in
  ok (map per_thousand df).

(* ===================================================================== *)
(** ** Time series: [return_data_for_time_series] *)
(* ===================================================================== *)

(** The frame [return_data_for_time_series] returns: filtered rows for an
    ordinary dimension, rows with a rate for a special one. *)
Inductive TimeSeries : Type :=
| SeriesRows (df : list Row)
| SeriesRates (df : list JoinedRow).

(** [pd.concat(frames, ignore_index=True)] *)
Definition pd_concat (frames : list (list Row)) : result (list Row) :=
  match frames with
  | [] => raise (ValueError "No objects to concatenate")
  | _ => ok (concat frames)
  end.

(** The loop [for year in config.data_source.keys(): ...]: the list
    [all_data] it builds, and the value the loop variable [year] is left
    with ([None]: the loop body never ran and the name is unbound). *)
Definition load_all_years (config : Config) : list (list Row) * option string :=
  fold_left (fun st item => (st.1 ++ [map (set_year item.1) item.2], Some item.1))
            (data_source config) ([], None).

Definition return_data_for_time_series (config : Config)
    (dimension org_level location : string) : result TimeSeries :=
  let '(all_data, year) := load_all_years config in
  let* combined_df := pd_concat all_data in
  let org_level :=
    if str_in dimension (special_dimensions config)
       && (String.eqb org_level "National" || String.eqb org_level "Provider")
    then "NHS England (Region)" else org_level in
  let combined_df := filter_for_measure_and_level combined_df dimension org_level in
  let combined_df := map_org_name combined_df in
  let combined_df := make_values_consistant combined_df in
  if negb (str_in dimension (special_dimensions config)) then
    ok (SeriesRows (List.filter (fun r => String.eqb (Org_Name r) location) combined_df))
  else
    match year with
    | None => raise (NameError "year")
    | Some year =>
        let* combined_df := join_pop_data config combined_df year in
        ok (SeriesRates (map per_thousand combined_df))
    end.

(** The organisation level the time series filters on. *)
Definition series_level (config : Config) (dimension org_level : string) : string :=
  if str_in dimension (special_dimensions config)
     && (String.eqb org_level "National" || String.eqb org_level "Provider")
  then "NHS England (Region)" else org_level.

(** The combined frame of all years, filtered and normalised, that the
    time series hands to [join_pop_data]. *)
Definition series_frame (config : Config) (dimension org_level : string) : list Row :=
  make_values_consistant
    (map_org_name
       (filter_for_measure_and_level
          (concat (map (fun item => map (set_year item.1) item.2) (data_source config)))
          dimension (series_level config dimension org_level))).

(* ===================================================================== *)
(** ** What is known of [argsort] *)
(* ===================================================================== *)

(** [argsort] returns the positions of its argument, each once, in an
    order that puts the keys in ascending order.  Nothing is known about
    equal keys: quicksort, the kind [sort_values] uses by default, is not
    a stable sort. *)
Definition argsort_spec (argsort : list Z -> list nat) : Prop :=
  forall l : list Z,
    argsort l ≡ₚ seq 0 (length l) /\
    Sorted Z.le (omap (fun i => l !! i) (argsort l)).

(** A row has a rank: its key is not missing. *)
Definition has_rank {A} (key : A -> option Z) (r : A) : bool :=
  bool_decide (is_Some (key r)).

Definition key_le (l : list Z) (i j : nat) : Prop := (l !!! i <= l !!! j)%Z.

#[global] Instance key_le_dec (l : list Z) (i j : nat) : Decision (key_le l i j) :=
  Z.le_dec (l !!! i) (l !!! j).

(** Two sorts that meet [argsort_spec]: a merge sort of the positions,
    which keeps equal keys in their order, and the same sort started from
    the positions in reverse, which does not. *)
Definition stable_argsort (l : list Z) : list nat :=
  merge_sort (key_le l) (seq 0 (length l)).

Definition unstable_argsort (l : list Z) : list nat :=
  merge_sort (key_le l) (reverse (seq 0 (length l))).

(* ===================================================================== *)
(** ** Concrete tables and configurations used in the examples below *)
(* ===================================================================== *)

(** The canonical short forms: the values of [name_dict]. *)
Definition canonical_names : list string := map snd name_dict.

Module Ex.

Definition region : string := "NHS England (Region)".

Definition row (code name level dimension measure : string) (v : Z) : Row :=
  mkRow code name level dimension measure (F64.of_Z v) None None None.

(** A name that contains a dictionary key without being one. *)
Definition nhs_london : Row :=
  row "Y56" "NHS LONDON COMMISSIONING REGION" region "TotalBabies" "All" 500.

Definition trust : Row :=
  row "RXX" "SOME HOSPITAL NHS TRUST" "Provider" "TotalBabies" "All" 40.

Definition smoking : string := "SmokingStatusGroupBooking".

Definition smoker (v : Z) : Row := row "Y56" "X" region smoking "Smoker" v.
Definition non_smoker (v : Z) : Row := row "Y56" "X" region smoking "Non-smoker" v.
Definition all_women (v : Z) : Row := row "Y56" "X" region smoking "All" v.

(** numerator {Smoker}, denominator {All} *)
Definition measure_dict : gmap string (gmap string Roles) :=
  {[ region := {[ smoking := mkRoles ["Smoker"] ["All"] ]} ]}.

(** numerator {Smoker}, denominator {Smoker, Non-smoker} *)
Definition measure_dict2 : gmap string (gmap string Roles) :=
  {[ region := {[ smoking := mkRoles ["Smoker"] ["Smoker"; "Non-smoker"] ]} ]}.

Definition babies : string := "TotalBabies".

(** Two years of a special dimension, each with its own population
    sheet (London: 40000 in the first year, 20000 + 30000 in the last). *)
Definition config_two_years : Config :=
  mkConfig
    [ ("2021-22", [row "Y56" "LONDON COMMISSIONING REGION" region babies "All" 500]);
      ("2022-23", [row "Y56" "LONDON COMMISSIONING REGION" region babies "All" 600;
                   row "Y99" "WALES" region babies "All" 7]) ]
    {[ "2021-22" := [mkPopRow "London" "E40000003" (F64.of_Z 40000)];
       "2022-23" := [mkPopRow "London" "E40000003" (F64.of_Z 20000);
                     mkPopRow "London" "E40000003" (F64.of_Z 30000)] ]}
    [babies; "TotalDeliveries"]
    {[ "London" := 0%Z; "South West" := 1%Z ]}
    [mkLocation "Y56" (F64.of_Z 51) (F64.of_Z 0)].


(** Two years that name one dimension differently: the first uses the
    historical label that [make_values_consistant] renames. *)
Definition config_alias : Config :=
  mkConfig
    [ ("2019-20", [row "ALL" "ALL SUBMITTERS" "National" "SmokingAtBooking" "Smoker" 10]);
      ("2022-23", [row "ALL" "ALL SUBMITTERS" "National" smoking "Smoker" 12]) ]
    ∅
    [babies; "TotalDeliveries"]
    ∅
    [].


(** The [Measure] of the source row of each row of a map frame. *)
Definition measures (rows : list MapRow) : list string :=
  omap (fun r => match m_rates r with
                 | FromPop j => Some (Measure (j_row j))
                 | FromPivot _ => None
                 end) rows.

Definition config_smoking : Config :=
  mkConfig
    [ ("2022-23", [smoker 10; non_smoker 90]) ]
    ∅
    [babies; "TotalDeliveries"]
    {[ "X" := 0%Z ]}
    [mkLocation "Y56" (F64.of_Z 51) (F64.of_Z 0)].

End Ex.

(* ===================================================================== *)
(** ** Tactics *)
(* ===================================================================== *)


(* ===================================================================== *)
(** ** Further definitions: statements about the rest of the pipeline *)
(* ===================================================================== *)


(** [s in d] for a replacement dict [d]: [s] is one of its keys. *)
Definition is_key (d : list (string * string)) (s : string) : bool :=
  existsb (fun kv => String.eqb s kv.1) d.

(** One row through [make_values_consistant]: the three replacements in
    turn. *)
Definition consistent_row (r : Row) : Row :=
  let r := set_Dimension (Re.replace_exact dimension_replace_dict) r in
  let r := set_Measure (Re.replace_exact measure_replace_dict) r in
  if String.eqb (Dimension r) "DeprivationDecileAtBooking"
  then set_Measure (Re.replace_exact deprivation_replace_dict) r
  else r.

(** The row [join_lat_lon_data] makes of [r] when the reference table has
    at most one row for its code: the coordinates of that row, missing
    ones when there is none. *)
Definition with_location (locations : list Location) (r : Row) : Row :=
  match List.find (fun l => String.eqb (Org_Code r) (org_code l)) locations with
  | Some l => set_lat_lon (loc_latitude l) (loc_longitude l) r
  | None => set_lat_lon F64.nan F64.nan r
  end.

(** The row [join_pop_data] makes of [r] when the aggregated table has at
    most one row for its name. *)
Definition with_population (df_pop_agg : list PopRow) (r : Row) : JoinedRow :=
  let pop := List.find (fun p => String.eqb (Org_Name r) (pop_name p)) df_pop_agg in
  mkJoinedRow r pop (F64.div (Value r) (j_Total pop)).

(** The rows [return_data_for_bar_chart] returns for a year's table. *)
Definition bar_chart_rows (df : list Row) (dimension org_level location : string) : list Row :=
  List.filter (fun r => String.eqb (Org_Name r) location)
    (filter_for_measure_and_level
       (make_values_consistant (map_org_name df)) dimension org_level).

(** [config] with another [pop_source]. *)
Definition set_pop_source (pop : gmap string (list PopRow)) (config : Config) : Config :=
  mkConfig (data_source config) pop (special_dimensions config)
           (region_order config) (locations_csv config).

(* ===================================================================== *)
(** ** The comparison marker: [merge_total_submitters] *)
(* ===================================================================== *)

(** A row of the merged frame: the row of [df_location], the
    [Percentage] column merged in from [df_all_submitters] and the
    [All Submitters Value] column. *)
Record MergedRow : Type := mkMergedRow {
  mg_row : Row;
  mg_Percentage : float;
  mg_All_Submitters_Value : float;
}.

Section Totals.

(** [Series.sum()] of a float column: the order in which numpy adds the
    cells is the library's, so the reduction is left open. *)
Variable series_sum : list float -> float.

(** The function also leaves the column [Percentage] on the caller's
    [df_all_submitters]; the frame it returns is modelled.
    [pd.merge(df_location, df_all_submitters[["Measure", "Percentage"]],
    on="Measure")] is an inner join: the left rows in order, each once per
    right row with the same measure, and not at all without one. *)
Definition merge_total_submitters (df_location df_all_submitters : list Row)
    : list MergedRow :=
  let total_all_submitters := series_sum (map Value df_all_submitters) in
  let percentage :=
    map (fun a => (Measure a, F64.div (Value a) total_all_submitters))
        df_all_submitters in
  let df_merged :=
    flat_map (fun l =>
      map (fun mp => (l, mp.2))
          (List.filter (fun mp => String.eqb (Measure l) mp.1) percentage))
      df_location in
  map (fun lp =>
         mkMergedRow lp.1 lp.2
           (F64.mul lp.2 (series_sum (map Value df_location))))
      df_merged.

(** The share of measure [m] among all submitters: its value over the
    total of all values. *)
Definition submitters_share (df_all_submitters : list Row) (m : string) : float :=
  match List.find (fun a => String.eqb m (Measure a)) df_all_submitters with
  | Some a => F64.div (Value a) (series_sum (map Value df_all_submitters))
  | None => F64.nan
  end.

End Totals.

(* ===================================================================== *)
(** ** The earlier variant: [create_maps/process_data.py] *)
(* ===================================================================== *)

Module CreateMaps.

Definition name_dict : list (string * string) :=
  [ ("LONDON COMMISSIONING REGION", "London");
    ("SOUTH WEST COMMISSIONING REGION", "South West");
    ("SOUTH EAST COMMISSIONING REGION", "South East");
    ("MIDLANDS COMMISSIONING REGION", "Midlands");
    ("EAST OF ENGLAND COMMISSIONING REGION", "East of England");
    ("NORTH WEST COMMISSIONING REGION", "North West");
    ("NORTH EAST AND YORKSHIRE COMMISSIONING REGION", "North East and Yorkshire") ].

(** [df['region_name'] = df['Org_Name'].replace(name_dict, regex=True)]:
    each row with the new column [region_name] beside it; [Org_Name] is
    kept. *)
Definition map_org_name (df : list Row) : list (Row * string) :=
  map (fun r => (r, Re.replace_regex name_dict (Org_Name r))) df.

End CreateMaps.

(* ===================================================================== *)
(** * Properties *)
(* ===================================================================== *)

(** ** Literal search and substitution *)

Module ReFacts.
Import Re.

Lemma eqb_ascii_true (a b : ascii) : Ascii.eqb a b = true -> a = b.
Proof. apply Ascii.eqb_eq. Qed.

Lemma startswith_refl (s : string) : startswith s s = true.
Proof. induction s as [|c s IH]; simpl; [done|]. by rewrite Ascii.eqb_refl. Qed.

Lemma startswith_trans (a b c : string) :
  startswith a b = true -> startswith b c = true -> startswith a c = true.
Proof.
  revert b c. induction a as [|x a IH]; intros b c Hab Hbc; [done|].
  destruct b as [|y b]; [done|]. destruct c as [|z c]; [done|].
  simpl in *. apply andb_prop in Hab as [Hxy Hab], Hbc as [Hyz Hbc].
  apply eqb_ascii_true in Hxy, Hyz. subst.
  rewrite Ascii.eqb_refl. simpl. by eapply IH.
Qed.

Lemma startswith_app_compat (K v X : string) :
  startswith K (v +:+ X) = true -> compat K v = true.
Proof.
  revert v. induction K as [|x K IH]; intros v H; [done|].
  destruct v as [|y v]; [done|]. simpl in *.
  apply andb_prop in H as [-> H]. simpl. by apply IH.
Qed.

Lemma search_startswith (K t : string) : startswith K t = true -> search K t = true.
Proof. destruct t; simpl; intros ->; done. Qed.

Lemma search_cons (K : string) (c : ascii) (t : string) :
  search K t = true -> search K (String c t) = true.
Proof. intros H. cbn [search]. rewrite H. apply orb_true_r. Qed.

Lemma search_drop (K : string) (n : nat) (t : string) :
  search K (drop n t) = true -> search K t = true.
Proof.
  revert t. induction n as [|n IH]; intros t H; [done|].
  destruct t as [|c t]; [done|]. simpl in H. by apply search_cons, IH.
Qed.

Lemma search_app_r (K v X : string) :
  all_nonempty_tails (fun v' => negb (compat K v')) v = true ->
  search K (v +:+ X) = true -> search K X = true.
Proof.
  induction v as [|c v IH]; intros Hv H; [done|].
  cbn [all_nonempty_tails] in Hv. apply andb_prop in Hv as [Hc Hv].
  change (String c v +:+ X) with (String c (v +:+ X)) in H.
  cbn [search] in H. apply orb_prop in H as [H|H].
  - apply (startswith_app_compat K (String c v) X) in H.
    rewrite H in Hc. done.
  - by apply IH.
Qed.

Lemma length_drop (n : nat) (t : string) : String.length (drop n t) <= String.length t.
Proof.
  revert t. induction n as [|n IH]; intros t; [done|].
  destruct t as [|c t]; [done|]. simpl. specialize (IH t). lia.
Qed.

Lemma sub_from_drop (p v : string) (n : nat) (s : string) :
  sub_from p v n s = sub p v (drop n s).
Proof.
  revert n. induction s as [|c s IH]; intros n.
  - by destruct n.
  - destruct n as [|n]; [done|]. simpl. apply IH.
Qed.

Lemma sub_hit (p v : string) (c : ascii) (s : string) :
  startswith p (String c s) = true ->
  sub p v (String c s) = v +:+ sub p v (drop (String.length p - 1) s).
Proof. intros H. unfold sub at 1. cbn [sub_from]. rewrite H. by rewrite sub_from_drop. Qed.

Lemma sub_miss (p v : string) (c : ascii) (s : string) :
  startswith p (String c s) = false ->
  sub p v (String c s) = String c (sub p v s).
Proof. intros H. unfold sub at 1. cbn [sub_from]. by rewrite H. Qed.

Lemma sub_id (B v t : string) : B <> "" -> search B t = false -> sub B v t = t.
Proof.
  intros HB. induction t as [|c t IH]; intros H; [done|].
  cbn [search] in H. apply orb_false_elim in H as [Hs H].
  rewrite sub_miss by done. by rewrite IH.
Qed.

Section OnePattern.
Variables K B v : string.
Hypothesis HK : no_new_match K B v = true.

Lemma no_new_match_nonempty : B <> "".
Proof using HK.
  unfold no_new_match in HK. apply andb_prop in HK as [HK' _].
  apply andb_prop in HK' as [HB _]. intros ->. done.
Qed.

Lemma no_new_match_tails :
  all_tails (fun K' => startswith K' B || negb (compat K' v)) K = true.
Proof using HK.
  unfold no_new_match in HK. apply andb_prop in HK as [HK' _].
  by apply andb_prop in HK' as [_ ?].
Qed.

Lemma no_new_match_inside :
  all_nonempty_tails (fun v' => negb (compat K v')) v = true.
Proof using HK. unfold no_new_match in HK. by apply andb_prop in HK as [_ ?]. Qed.

(** A tail of [K] that starts the rewritten string started the
    original one. *)
Lemma startswith_sub (t K' : string) :
  all_tails (fun K' => startswith K' B || negb (compat K' v)) K' = true ->
  startswith K' (sub B v t) = true -> startswith K' t = true.
Proof.
  revert K'. induction t as [|c t IH]; intros K' HK' H; [done|].
  destruct (startswith B (String c t)) eqn:Hhit.
  - rewrite sub_hit in H by done.
    apply startswith_app_compat in H.
    destruct K' as [|x K'']; [done|].
    cbn [all_tails] in HK'. apply andb_prop in HK' as [Hf _].
    rewrite H in Hf. simpl in Hf. rewrite orb_false_r in Hf.
    by eapply startswith_trans.
  - rewrite sub_miss in H by done.
    destruct K' as [|x K'']; [done|].
    cbn [all_tails] in HK'. apply andb_prop in HK' as [_ HK''].
    simpl in *. apply andb_prop in H as [-> H]. simpl. by apply IH.
Qed.

(** Replacing [B] by [v] creates no occurrence of [K]. *)
Lemma search_sub_aux (n : nat) (t : string) :
  String.length t <= n -> search K (sub B v t) = true -> search K t = true.
Proof.
  revert t. induction n as [|n IH]; intros t Hn H.
  - destruct t; [done|simpl in Hn; lia].
  - destruct t as [|c t]; [done|]. simpl in Hn.
    destruct (startswith B (String c t)) eqn:Hhit.
    + rewrite sub_hit in H by done.
      apply search_app_r in H; [|apply no_new_match_inside].
      apply search_cons. eapply search_drop, IH; [|done].
      pose proof (length_drop (String.length B - 1) t). lia.
    + rewrite sub_miss in H by done.
      cbn [search] in H. apply orb_prop in H as [H|H].
      * apply search_startswith.
        apply startswith_sub; [apply no_new_match_tails|].
        by rewrite sub_miss.
      * apply search_cons, IH; [lia|done].
Qed.

Lemma search_sub (t : string) :
  search K (sub B v t) = true -> search K t = true.
Proof. by apply (search_sub_aux (String.length t)). Qed.

End OnePattern.

(** After [K] has been replaced, [K] does not occur. *)
Lemma search_sub_self_aux (K v : string) (n : nat) (t : string) :
  no_new_match K K v = true ->
  String.length t <= n -> search K (sub K v t) = false.
Proof.
  intros HK. revert t. induction n as [|n IH]; intros t Hn.
  - destruct t; [|simpl in Hn; lia].
    pose proof (no_new_match_nonempty _ _ _ HK). by destruct K.
  - destruct t as [|c t].
    { pose proof (no_new_match_nonempty _ _ _ HK). by destruct K. }
    simpl in Hn. destruct (startswith K (String c t)) eqn:Hhit.
    + rewrite sub_hit by done.
      destruct (search K (v +:+ _)) eqn:H; [|done].
      apply search_app_r in H; [|by eapply no_new_match_inside].
      rewrite IH in H; [done|].
      pose proof (length_drop (String.length K - 1) t). lia.
    + rewrite sub_miss by done. cbn [search].
      rewrite IH by lia. rewrite orb_false_r.
      destruct (startswith K (String c (sub K v t))) eqn:H; [|done].
      rewrite <- sub_miss in H by done.
      apply (startswith_sub K v) in H; [congruence|].
      by eapply no_new_match_tails.
  Qed.

Lemma search_sub_self (K v t : string) :
  no_new_match K K v = true -> search K (sub K v t) = false.
Proof. intros HK. by apply (search_sub_self_aux K v (String.length t)). Qed.


Section Dictionary.
Variable d : list (string * string).
Hypothesis Hd : dict_ok d = true.

Lemma dict_ok_pair (K vK B v : string) :
  In (K, vK) d -> In (B, v) d -> no_new_match K B v = true.
Proof using Hd.
  intros HK HB. unfold dict_ok in Hd. rewrite forallb_forall in Hd.
  specialize (Hd _ HK). rewrite forallb_forall in Hd. apply (Hd _ HB).
Qed.

(** Keys that do not occur are not brought about by the later pairs. *)
Lemma replace_from_no_match (orig : string) (K : string) (l : list (string * string)) :
  (forall B v, In (B, v) l -> no_new_match K B v = true) ->
  forall cur, search K cur = false -> search K (replace_from orig l cur) = false.
Proof.
  unfold replace_from.
  induction l as [|[B v] l IH]; intros Hl cur Hcur; [done|].
  cbn [fold_left]. apply IH.
  - intros B' v' Hin. apply Hl. by right.
  - unfold replace_step. cbn [fst snd]. destruct (search B orig); [|done].
    destruct (search K (sub B v cur)) eqn:H; [|done].
    apply search_sub in H; [congruence|]. apply Hl. by left.
Qed.

Lemma replace_regex_no_key (K vK s : string) :
  In (K, vK) d -> search K (replace_regex d s) = false.
Proof using Hd.
  intros HK. destruct (in_split _ _ HK) as (l1 & l2 & Hsplit).
  unfold replace_regex, replace_from. rewrite Hsplit at 1.
  rewrite fold_left_app. cbn [fold_left].
  assert (Hl : forall l, (forall x, In x l -> In x d) ->
             forall B v, In (B, v) l -> no_new_match K B v = true).
  { intros l Hsub B v Hin. eapply dict_ok_pair; [done|]. by apply Hsub. }
  apply replace_from_no_match.
  { apply Hl. intros x Hx. rewrite Hsplit. apply in_or_app. right. by right. }
  unfold replace_step at 1. cbn [fst snd].
  destruct (search K s) eqn:Hmask.
  - apply search_sub_self. by eapply dict_ok_pair.
  - apply replace_from_no_match; [|done].
    apply Hl. intros x Hx. rewrite Hsplit. apply in_or_app. by left.
Qed.

(** When no pattern matched the original, nothing is rewritten. *)
Lemma replace_from_id (orig : string) (l : list (string * string)) (cur : string) :
  (forall K v, In (K, v) l -> search K orig = false) ->
  replace_from orig l cur = cur.
Proof.
  unfold replace_from. revert cur.
  induction l as [|[K v] l IH]; intros cur Hl; [done|].
  cbn [fold_left]. unfold replace_step at 2. cbn [fst snd].
  rewrite (Hl K v) by (by left). apply IH. intros K' v' Hin. eapply Hl. by right.
Qed.

Lemma replace_regex_idempotent (s : string) :
  replace_regex d (replace_regex d s) = replace_regex d s.
Proof using Hd.
  unfold replace_regex at 1. apply replace_from_id.
  intros K v HK. by eapply replace_regex_no_key.
Qed.

(** Under [dict_ok] it makes no difference that the masks are taken on
    the original column: a pattern that did not match there does not match
    the column as rewritten so far either, so the pass is the plain
    succession of the substitutions. *)
Lemma replace_from_subs (orig : string) (l : list (string * string)) :
  (forall x, In x l -> In x d) ->
  forall cur,
    (forall K v, In (K, v) l -> search K orig = false -> search K cur = false) ->
    replace_from orig l cur = fold_left (fun cur kv => sub kv.1 kv.2 cur) l cur.
Proof using Hd.
  unfold replace_from. induction l as [|[B v] l IH]; intros Hl cur Hinv; [done|].
  cbn [fold_left]. unfold replace_step at 2. cbn [fst snd].
  assert (HB : In (B, v) d) by (apply Hl; by left).
  assert (Hl' : forall x, In x l -> In x d) by (intros x Hx; apply Hl; by right).
  assert (Hstep : (if search B orig then sub B v cur else cur) = sub B v cur).
  { destruct (search B orig) eqn:Hm; [done|]. symmetry. apply sub_id.
    - eapply no_new_match_nonempty, dict_ok_pair; exact HB.
    - eapply Hinv; [by left|done]. }
  rewrite Hstep. apply IH; [done|].
  intros K vK HK Hm. destruct (search K (sub B v cur)) eqn:Hs; [|done].
  apply search_sub in Hs.
  - rewrite (Hinv K vK) in Hs; [done|by right|done].
  - eapply dict_ok_pair; [apply Hl'; exact HK|exact HB].
Qed.

Lemma replace_regex_subs (s : string) :
  replace_regex d s = fold_left (fun cur kv => sub kv.1 kv.2 cur) d s.
Proof using Hd. apply replace_from_subs; done. Qed.

End Dictionary.

Lemma name_dict_ok : dict_ok name_dict = true.
Proof. vm_compute. reflexivity. Qed.

End ReFacts.

(* ===================================================================== *)
(** ** Name Normalizer *)
(* ===================================================================== *)

Lemma map_org_name_names (df : list Row) :
  map Org_Name (map_org_name df) = map (Re.replace_regex name_dict) (map Org_Name df).
Proof. unfold map_org_name. rewrite !map_map. done. Qed.

(** What one row becomes: only [Org_Name] changes. *)
Lemma set_Org_Name_other (f : string -> string) (r : Row) :
  Org_Code (set_Org_Name f r) = Org_Code r /\
  Org_Level (set_Org_Name f r) = Org_Level r /\
  Dimension (set_Org_Name f r) = Dimension r /\
  Measure (set_Org_Name f r) = Measure r /\
  Value (set_Org_Name f r) = Value r /\
  year (set_Org_Name f r) = year r /\
  latitude (set_Org_Name f r) = latitude r /\
  longitude (set_Org_Name f r) = longitude r.
Proof. done. Qed.

Lemma replace_regex_key (k v : string) :
  In (k, v) name_dict -> Re.replace_regex name_dict k = v.
Proof.
  intros H. repeat (destruct H as [H|H]; [inversion H; subst; vm_compute; reflexivity|]).
  destruct H.
Qed.

(** C5 (as amended).  After [map_org_name] every row keeps all its other
    columns; a name that is a dictionary key has become the key's
    canonical short form; a name in which no dictionary key occurs is
    unchanged, character for character; and in every case no dictionary
    key occurs in the new name any more. *)
Theorem map_org_name_spec (df : list Row) :
  Forall2 (fun r r' =>
      r' = set_Org_Name (fun _ => Org_Name r') r /\
      (forall k v, In (k, v) name_dict -> Org_Name r = k -> Org_Name r' = v) /\
      ((forall k v, In (k, v) name_dict -> Re.search k (Org_Name r) = false) ->
         Org_Name r' = Org_Name r) /\
      (forall k v, In (k, v) name_dict -> Re.search k (Org_Name r') = false))
    df (map_org_name df).
Proof.
  unfold map_org_name. induction df as [|r df IH]; constructor; [|done].
  split; [done|]. cbn [set_Org_Name Org_Name]. repeat split.
  - intros k v Hin <-. by apply replace_regex_key.
  - intros Hno. by apply ReFacts.replace_from_id.
  - intros k v Hin. eapply ReFacts.replace_regex_no_key; [apply ReFacts.name_dict_ok|done].
Qed.

(** C5, counterexample.  The substitution is by regular-expression
    search: in "NHS LONDON COMMISSIONING REGION", which is not a key of
    the dictionary, the key that occurs inside is rewritten, and the
    result "NHS London" is neither a canonical short form nor the
    original name. *)
Lemma map_org_name_rewrites_inside :
  ~ In (Org_Name Ex.nhs_london) (map fst name_dict) /\
  map Org_Name (map_org_name [Ex.nhs_london]) = ["NHS London"] /\
  ~ Forall2 (fun r r' => In (Org_Name r') canonical_names \/ Org_Name r' = Org_Name r)
      [Ex.nhs_london] (map_org_name [Ex.nhs_london]).
Proof.
  split; [|split].
  - vm_compute. intros H. repeat (destruct H as [H|H]; [discriminate H|]). done.
  - vm_compute. reflexivity.
  - intros H. inversion H as [|? ? ? ? Hr _]; subst. clear H.
    vm_compute in Hr. destruct Hr as [Hr|Hr]; [|discriminate Hr].
    repeat (destruct Hr as [Hr|Hr]; [discriminate Hr|]). done.
Qed.

(** C9.  [map_org_name] is idempotent: a second application changes
    nothing (so in particular the [Org_Name] column is the same). *)
Theorem map_org_name_idempotent (df : list Row) :
  map_org_name (map_org_name df) = map_org_name df.
Proof.
  unfold map_org_name. rewrite map_map. apply map_ext. intros r.
  unfold set_Org_Name. cbn [Org_Code Org_Name Org_Level Dimension Measure Value year latitude longitude].
  by rewrite (ReFacts.replace_regex_idempotent _ ReFacts.name_dict_ok).
Qed.

(* ===================================================================== *)
(** ** Row Filter *)
(* ===================================================================== *)

Lemma sublist_List_filter {A} (f : A -> bool) (l : list A) : sublist (List.filter f l) l.
Proof.
  induction l as [|x l IH]; simpl; [constructor|].
  destruct (f x); by constructor.
Qed.

(** C6.  The rows [filter_for_measure_and_level] returns are rows of the
    input, in the input's order (a sublist); each has exactly the target
    dimension and organisation level (equality of strings, so case
    matters); every input row that has both is returned; and when no row has
    both the result is the empty table (the function has no error case). *)
Theorem filter_for_measure_and_level_spec (df : list Row) (dimension org_level : string) :
  let out := filter_for_measure_and_level df dimension org_level in
  sublist out df /\
  Forall (fun r => Dimension r = dimension /\ Org_Level r = org_level) out /\
  (forall r, In r df -> Dimension r = dimension -> Org_Level r = org_level -> In r out) /\
  ((forall r, In r df -> ~ (Dimension r = dimension /\ Org_Level r = org_level)) -> out = []).
Proof.
  unfold filter_for_measure_and_level. cbn zeta.
  set (out := List.filter _ (List.filter _ df)).
  assert (Hin : forall r,
    In r out <-> In r df /\ Dimension r = dimension /\ Org_Level r = org_level).
  { intros r. unfold out. rewrite !filter_In, !String.eqb_eq. tauto. }
  assert (Hsub : sublist out df).
  { unfold out. etrans; apply sublist_List_filter. }
  clearbody out. split; [done|]. split; [|split].
  - apply List.Forall_forall. intros r Hr. apply Hin in Hr. tauto.
  - intros r ? ? ?. apply Hin. tauto.
  - intros Hno. destruct out as [|r out]; [done|].
    destruct (proj1 (Hin r)) as (Hr & ? & ?); [by left|].
    by destruct (Hno r Hr).
Qed.

(** Matching is case-sensitive. *)
Example filter_for_measure_and_level_case :
  filter_for_measure_and_level [Ex.trust] "TotalBabies" "provider" = [] /\
  filter_for_measure_and_level [Ex.trust] "TotalBabies" "Provider" = [Ex.trust].
Proof. split; vm_compute; reflexivity. Qed.

(* ===================================================================== *)
(** ** Rate Calculator, ordinary path *)
(* ===================================================================== *)

Lemma compare_refl (s : string) : String.compare s s = Eq.
Proof.
  pose proof (String.compare_antisym s s) as H.
  destruct (String.compare s s); [done|discriminate H|discriminate H].
Qed.






(** The spec's end-to-end scenario: Smoker 10, Non-smoker 90, numerator
    {Smoker}, denominator {Smoker, Non-smoker}: the rate is the float64
    nearest to 0.1. *)
Example get_rates_scenario :
  bind (get_rates [Ex.smoker 10; Ex.non_smoker 90] Ex.smoking Ex.measure_dict2 Ex.region)
       (fun rows => ok (map pv_Rate rows))
  = ok [F64.div (F64.of_Z 1) (F64.of_Z 10)].
Proof. vm_compute. reflexivity. Qed.

Lemma get_rates_raises_without_mapping (df : list Row) (dimension : string)
    (measure_dict : gmap string (gmap string Roles)) (org_level : string) :
  measure_dict !! org_level ≫= (fun by_level => by_level !! dimension) = None ->
  get_rates df dimension measure_dict org_level =
    if has_duplicate_entries df
    then raise (ValueError "Index contains duplicate entries, cannot reshape")
    else raise (KeyError (match measure_dict !! org_level with
                          | Some _ => dimension
                          | None => org_level
                          end)).
Proof.
  intros H. unfold get_rates, pivot, getitem.
  destruct (has_duplicate_entries df); [done|]. cbn [bind ok].
  destruct (measure_dict !! org_level) as [by_level|]; [|done].
  cbn [bind ok]. cbn in H. by rewrite H.
Qed.

(** C3 (as amended).  When the configuration has no entry for the
    (organisation level, dimension) pair, [get_rates] raises and returns no
    table; on a table without two rows for one (organisation, measure) the
    exception is the [KeyError] of the missing key: the organisation level
    when that is absent, else the dimension. *)
Theorem get_rates_no_mapping (df : list Row) (dimension : string)
    (measure_dict : gmap string (gmap string Roles)) (org_level : string) :
  measure_dict !! org_level ≫= (fun by_level => by_level !! dimension) = None ->
  (exists e, get_rates df dimension measure_dict org_level = raise e) /\
  (has_duplicate_entries df = false ->
   get_rates df dimension measure_dict org_level =
     raise (KeyError (match measure_dict !! org_level with
                      | Some _ => dimension
                      | None => org_level
                      end))).
Proof.
  intros H. rewrite (get_rates_raises_without_mapping _ _ _ _ H).
  split.
  - destruct (has_duplicate_entries df); eauto.
  - by intros ->.
Qed.

Lemma get_rates_no_mapping_witness :
  (exists e, get_rates [Ex.smoker 10; Ex.all_women 100] "Unknown" Ex.measure_dict Ex.region
             = raise e) /\
  (has_duplicate_entries [Ex.smoker 10; Ex.all_women 100] = false ->
   get_rates [Ex.smoker 10; Ex.all_women 100] "Unknown" Ex.measure_dict Ex.region =
     raise (KeyError (match Ex.measure_dict !! Ex.region with
                      | Some _ => "Unknown"
                      | None => Ex.region
                      end))).
Proof. apply get_rates_no_mapping. vm_compute. reflexivity. Defined.

(** C3, counterexample.  With no mapping for the dimension and a table
    that holds one (organisation, measure) twice, the pivot raises first:
    the exception is its [ValueError], which does not name the missing
    key. *)
Lemma get_rates_no_mapping_duplicate_rows :
  Ex.measure_dict !! Ex.region ≫= (fun by_level => by_level !! "Unknown") = None /\
  get_rates [Ex.smoker 10; Ex.smoker 12] "Unknown" Ex.measure_dict Ex.region
  = raise (ValueError "Index contains duplicate entries, cannot reshape").
Proof. split; vm_compute; reflexivity. Qed.

(* ===================================================================== *)
(** ** Rate Calculator, special path *)
(* ===================================================================== *)

Lemma div_nan_r (x : float) : F64.div x F64.nan = F64.nan.
Proof. by destruct x. Qed.

(** The rows a left join produces for one left row. *)
Lemma in_left_join {A B} (f : B -> bool) (r : A) (ps : list B) (x : A * option B) :
  In x (match List.filter f ps with
        | [] => [(r, None)]
        | qs => map (fun p => (r, Some p)) qs
        end) <->
  x.1 = r /\ match x.2 with
             | Some p => In p ps /\ f p = true
             | None => forall p, In p ps -> f p = false
             end.
Proof.
  destruct x as [r' o]. cbn [fst snd].
  destruct (List.filter f ps) as [|q qs] eqn:E.
  - split.
    + intros [[= <- <-]|[]]. split; [done|]. intros p Hp.
      destruct (f p) eqn:Hf; [|done].
      assert (Hin : In p (List.filter f ps)) by (by apply filter_In).
      by rewrite E in Hin.
    + intros [-> Ho]. destruct o as [p|]; [|by left].
      destruct Ho as [Hp Hf].
      assert (Hin : In p (List.filter f ps)) by (by apply filter_In).
      by rewrite E in Hin.
  - rewrite <- E. rewrite in_map_iff. split.
    + intros (p & [= <- <-] & Hp). apply filter_In in Hp. done.
    + intros [-> Ho]. destruct o as [p|].
      * exists p. split; [done|]. by apply filter_In.
      * assert (Hq : In q (List.filter f ps)) by (rewrite E; by left).
        apply filter_In in Hq as [Hq Hf]. rewrite (Ho q Hq) in Hf. done.
Qed.

Lemma in_join_pop_data (config : Config) (df : list Row) (year : string)
    (df_pop : list PopRow) :
  pop_source config !! year = Some df_pop ->
  exists joined,
    join_pop_data config df year = ok joined /\
    forall j, In j joined <->
      In (j_row j) df /\
      j_Rate j = F64.div (Value (j_row j)) (j_Total (j_pop j)) /\
      match j_pop j with
      | Some p => In p (groupby_sum df_pop) /\ Org_Name (j_row j) = pop_name p
      | None => forall p, In p (groupby_sum df_pop) -> Org_Name (j_row j) <> pop_name p
      end.
Proof.
  intros Hpop. unfold join_pop_data, getitem. rewrite Hpop. cbn [bind ok].
  eexists. split; [reflexivity|]. intros j.
  rewrite in_map_iff. setoid_rewrite in_flat_map. split.
  - intros ([r o] & <- & r' & Hr' & Hin). apply in_left_join in Hin as [-> Ho].
    cbn [fst snd j_row j_pop j_Rate] in *. split; [done|]. split; [done|].
    destruct o as [p|].
    + destruct Ho as [Hp Hf]. by apply String.eqb_eq in Hf.
    + intros p Hp. apply String.eqb_neq. by apply Ho.
  - intros (Hr & HR & Ho). exists (j_row j, j_pop j). split.
    + destruct j as [r o R]. cbn [fst snd j_row j_pop j_Rate] in *. by rewrite HR.
    + exists (j_row j). split; [done|]. apply in_left_join. cbn [fst snd].
      split; [done|]. destruct (j_pop j) as [p|].
      * destruct Ho as [Hp He]. split; [done|]. by apply String.eqb_eq.
      * intros p Hp. apply String.eqb_neq. by apply Ho.
Qed.

(** C2.  On the special path ([join_pop_data], then [Rate * 1000]), given
    the year's population sheet, no error is raised and the rows of the
    result are exactly these: for every input row with value [v] and every
    row of the aggregated population table with the same name and total
    [p], a row whose [Rate] is [(v / p) * 1000]; and for every input row
    whose name is not in the aggregated table, one row whose [Rate] is
    missing (NaN). *)
Theorem join_pop_data_rate (config : Config) (df : list Row) (year : string)
    (df_pop : list PopRow) :
  pop_source config !! year = Some df_pop ->
  exists joined,
    join_pop_data config df year = ok joined /\
    forall j, In j (map per_thousand joined) <->
      In (j_row j) df /\
      match j_pop j with
      | Some p =>
          In p (groupby_sum df_pop) /\ Org_Name (j_row j) = pop_name p /\
          j_Rate j = F64.mul (F64.div (Value (j_row j)) (Total p)) (F64.of_Z 1000)
      | None =>
          (forall p, In p (groupby_sum df_pop) -> Org_Name (j_row j) <> pop_name p) /\
          j_Rate j = F64.nan
      end.
Proof.
  intros Hpop. destruct (in_join_pop_data config df year df_pop Hpop) as (joined & Hj & Hin).
  exists joined. split; [done|]. intros j. rewrite in_map_iff. split.
  - intros (j0 & <- & Hj0). apply Hin in Hj0 as (Hr & HR & Ho).
    unfold per_thousand. cbn [j_row j_pop j_Rate]. split; [done|].
    destruct (j_pop j0) as [p|].
    + destruct Ho as [Hp He]. by rewrite HR.
    + split; [done|]. rewrite HR. cbn [j_Total]. by rewrite div_nan_r.
  - intros (Hr & Ho).
    exists (mkJoinedRow (j_row j) (j_pop j) (F64.div (Value (j_row j)) (j_Total (j_pop j)))).
    split.
    + destruct j as [r o R]. unfold per_thousand. cbn [j_row j_pop j_Rate] in *.
      destruct o as [p|].
      * destruct Ho as (_ & _ & ->). done.
      * destruct Ho as (_ & ->). cbn [j_Total]. by rewrite div_nan_r.
    + apply Hin. cbn [j_row j_pop j_Rate]. split; [done|]. split; [done|].
      destruct (j_pop j) as [p|]; tauto.
Qed.

Lemma join_pop_data_rate_witness :
  exists joined,
    join_pop_data Ex.config_two_years
      [Ex.row "Y56" "London" Ex.region Ex.babies "All" 500] "2022-23" = ok joined /\
    forall j, In j (map per_thousand joined) <->
      In (j_row j) [Ex.row "Y56" "London" Ex.region Ex.babies "All" 500] /\
      match j_pop j with
      | Some p =>
          In p (groupby_sum [mkPopRow "London" "E40000003" (F64.of_Z 20000);
                             mkPopRow "London" "E40000003" (F64.of_Z 30000)]) /\
          Org_Name (j_row j) = pop_name p /\
          j_Rate j = F64.mul (F64.div (Value (j_row j)) (Total p)) (F64.of_Z 1000)
      | None =>
          (forall p, In p (groupby_sum [mkPopRow "London" "E40000003" (F64.of_Z 20000);
                                        mkPopRow "London" "E40000003" (F64.of_Z 30000)]) ->
                     Org_Name (j_row j) <> pop_name p) /\
          j_Rate j = F64.nan
      end.
Proof. apply join_pop_data_rate. vm_compute. reflexivity. Defined.

(** The spec's end-to-end scenario: value 500, population 50000, rate 10
    per thousand. *)
Example join_pop_data_scenario :
  bind (join_pop_data Ex.config_two_years
          [Ex.row "Y56" "London" Ex.region Ex.babies "All" 500] "2022-23")
       (fun joined => ok (map (fun j => j_Rate (per_thousand j)) joined))
  = ok [F64.of_Z 10].
Proof. vm_compute. reflexivity. Qed.

(* ===================================================================== *)
(** ** Time series *)
(* ===================================================================== *)

(** The frames the loop collects, in iteration order, each row tagged with
    its year; and the loop variable's last value. *)
Lemma load_all_years_eq (config : Config) :
  load_all_years config =
  (map (fun item => map (set_year item.1) item.2) (data_source config),
   last (map fst (data_source config))).
Proof.
  unfold load_all_years.
  assert (H : forall l acc y,
    fold_left (fun (st : list (list Row) * option string) (item : string * list Row) =>
                 (st.1 ++ [map (set_year item.1) item.2], Some item.1)) l (acc, y)
    = (acc ++ map (fun item => map (set_year item.1) item.2) l,
       match last (map fst l) with Some y' => Some y' | None => y end)).
  { induction l as [|item l IH]; intros acc y.
    - cbn. by rewrite app_nil_r.
    - cbn [fold_left fst snd]. rewrite IH. rewrite <- app_assoc. cbn [map app].
      f_equal. destruct l as [|item' l]; [reflexivity|]. cbn [map].
      rewrite last_cons_cons.
      destruct (last (item'.1 :: map fst l)) eqn:E; [done|].
      by apply last_None in E. }
  rewrite H. cbn [app]. by destruct (last (map fst (data_source config))).
Qed.

Lemma return_data_for_time_series_special (config : Config)
    (dimension org_level location : string)
    (items : list (string * list Row)) (last_year : string) (df_last : list Row) :
  str_in dimension (special_dimensions config) = true ->
  data_source config = items ++ [(last_year, df_last)] ->
  return_data_for_time_series config dimension org_level location =
    bind (join_pop_data config (series_frame config dimension org_level) last_year)
         (fun joined => ok (SeriesRates (map per_thousand joined))).
Proof.
  intros Hs Hds.
  assert (Hlast : last (map fst (data_source config)) = Some last_year).
  { rewrite Hds, map_app. cbn [map fst]. apply last_snoc. }
  assert (Hcat : pd_concat (map (fun item => map (set_year item.1) item.2) (data_source config))
                 = ok (concat (map (fun item => map (set_year item.1) item.2)
                                   (data_source config)))).
  { rewrite Hds, map_app. cbn [map]. unfold pd_concat.
    by destruct (map _ items ++ [_]) eqn:E; [destruct (map _ items)|]. }
  unfold return_data_for_time_series, series_frame, series_level.
  rewrite load_all_years_eq, Hlast, Hcat, Hs. reflexivity.
Qed.






(** The row of 2021-22 is joined with the population of 2022-23 (50000),
    not with that of its own year (40000). *)
Example time_series_first_year_total :
  bind (return_data_for_time_series Ex.config_two_years Ex.babies "National" "London")
       (fun ts => match ts with
                  | SeriesRates rates =>
                      ok (map (fun j => (year (j_row j), j_Total (j_pop j))) rates)
                  | SeriesRows _ => ok []
                  end)
  = ok [(Some "2021-22", F64.of_Z 50000);
        (Some "2022-23", F64.of_Z 50000);
        (Some "2022-23", F64.nan)].
Proof. vm_compute. reflexivity. Qed.

(** C4 (the code at the failing input).  Two years, the first of which
    still uses the dimension label "SmokingAtBooking": the time series for
    "SmokingStatusGroupBooking" filters before it renames, so the first
    year's row is lost; the single-year bar chart of that year, which
    renames before it filters, returns the row. *)
Lemma time_series_filters_before_renaming :
  return_data_for_time_series Ex.config_alias Ex.smoking "National" "All Submitters"
  = ok (SeriesRows
          [mkRow "ALL" "All Submitters" "National" Ex.smoking "Smoker" (F64.of_Z 12)
                 (Some "2022-23") None None]) /\
  return_data_for_bar_chart Ex.config_alias Ex.smoking "National" "All Submitters" "2019-20"
  = ok [mkRow "ALL" "All Submitters" "National" Ex.smoking "Smoker" (F64.of_Z 10)
              None None None].
Proof. split; vm_compute; reflexivity. Qed.

(** What the time series does as the claim says: the frames of all years,
    each row tagged with its year, concatenated in the order of
    [config.data_source]. *)
Lemma time_series_rows (config : Config) (dimension org_level location : string)
    (item : string * list Row) (items : list (string * list Row)) :
  str_in dimension (special_dimensions config) = false ->
  data_source config = item :: items ->
  return_data_for_time_series config dimension org_level location =
    ok (SeriesRows
          (List.filter (fun r => String.eqb (Org_Name r) location)
             (make_values_consistant
                (map_org_name
                   (filter_for_measure_and_level
                      (concat (map (fun item => map (set_year item.1) item.2)
                                   (data_source config)))
                      dimension org_level))))).
Proof.
  intros Hs Hds. unfold return_data_for_time_series.
  rewrite load_all_years_eq, Hs, Hds. reflexivity.
Qed.

(* ===================================================================== *)
(** ** Assembler: region order *)
(* ===================================================================== *)

Section TakeRows.
Context {A : Type}.
Implicit Types (df : list A) (f : A -> bool).

Lemma filter_map_S (P : nat -> bool) (l : list nat) :
  List.filter P (map S l) = map S (List.filter (fun i => P (S i)) l).
Proof.
  induction l as [|i l IH]; [done|]. cbn [map List.filter].
  destruct (P (S i)); cbn [map]; by rewrite IH.
Qed.

Lemma omap_map_S {B} (g : nat -> option B) (l : list nat) :
  omap g (map S l) = omap (fun i => g (S i)) l.
Proof.
  induction l as [|i l IH]; [done|]. cbn [map]. csimpl. by rewrite IH.
Qed.

(** Taking the rows at the positions that satisfy a test is filtering
    the rows. *)
Lemma take_filtered_positions f df :
  omap (fun i => df !! i)
       (List.filter (fun i => match df !! i with Some x => f x | None => false end)
                    (seq 0 (length df)))
  = List.filter f df.
Proof.
  induction df as [|x df IH]; [done|].
  cbn [length seq]. rewrite <- seq_shift. cbn [List.filter].
  change ((x :: df) !! 0) with (Some x). cbn iota.
  rewrite filter_map_S.
  destruct (f x); csimpl; rewrite omap_map_S; [f_equal|]; exact IH.
Qed.

Lemma take_all_positions df : omap (fun i => df !! i) (seq 0 (length df)) = df.
Proof.
  induction df as [|x df IH]; [done|].
  cbn [length seq]. rewrite <- seq_shift. csimpl. rewrite omap_map_S.
  f_equal. exact IH.
Qed.

Lemma omap_omap {B C} (g : A -> option B) (h : B -> option C) (l : list A) :
  omap h (omap g l) = omap (fun x => g x ≫= h) l.
Proof.
  induction l as [|x l IH]; [done|]. csimpl.
  destruct (g x) as [y|]; csimpl; [|done]. destruct (h y); by rewrite IH.
Qed.

Lemma omap_lookup {B} (g : A -> option B) (l : list A) (j : nat) :
  Forall (fun x => is_Some (g x)) l ->
  omap g l !! j = l !! j ≫= g.
Proof.
  intros Hl. revert j. induction Hl as [|x l [y Hy] Hl IH]; intros j; [done|].
  csimpl. rewrite Hy. destruct j as [|j]; csimpl; [done|]. apply IH.
Qed.

Lemma length_omap_all {B} (g : A -> option B) (l : list A) :
  Forall (fun x => is_Some (g x)) l -> length (omap g l) = length l.
Proof.
  induction 1 as [|x l [y Hy] Hl IH]; [done|]. csimpl. rewrite Hy. cbn. by rewrite IH.
Qed.

Lemma omap_filter_is_Some {B} (g : A -> option B) (l : list A) :
  omap g (List.filter (fun x => bool_decide (is_Some (g x))) l) = omap g l.
Proof.
  induction l as [|x l IH]; [done|]. cbn [List.filter]. csimpl.
  destruct (g x) as [y|] eqn:Hg.
  - rewrite bool_decide_true by done. csimpl. by rewrite Hg, IH.
  - rewrite bool_decide_false by (by intros [? ?]). done.
Qed.

Lemma Forall_filter_is_Some {B} (g : A -> option B) (l : list A) :
  Forall (fun x => is_Some (g x)) (List.filter (fun x => bool_decide (is_Some (g x))) l).
Proof.
  apply List.Forall_forall. intros x Hx. apply filter_In in Hx as [_ Hx].
  by apply bool_decide_eq_true in Hx.
Qed.

End TakeRows.

Lemma lookup_total_map_key {A} (key : A -> option Z) (df : list A) (i : nat) :
  map key df !!! i = df !! i ≫= key.
Proof.
  revert i. induction df as [|x df IH]; intros [|i]; try done. apply IH.
Qed.

Lemma omap_id_map {A} (key : A -> option Z) (df : list A) :
  omap id (map key df) = omap key df.
Proof. induction df as [|x df IH]; [done|]. cbn [map]. csimpl. by rewrite IH. Qed.

Section SortValues.
Variable argsort : list Z -> list nat.
Hypothesis argsort_ok : argsort_spec argsort.

Context {A : Type} (key : A -> option Z).

Lemma take_ranked_positions (df : list A) :
  omap (fun i => df !! i)
       (List.filter (fun i => bool_decide (is_Some (map key df !!! i)))
                    (seq 0 (length (map key df))))
  = List.filter (has_rank key) df.
Proof.
  rewrite length_map, <- (take_filtered_positions (has_rank key) df). f_equal.
  apply filter_ext. intros i. rewrite lookup_total_map_key.
  destruct (df !! i) as [x|]; [done|]. apply bool_decide_false. by intros [? ?].
Qed.

Lemma take_unranked_positions (df : list A) :
  omap (fun i => df !! i)
       (List.filter (fun i => negb (bool_decide (is_Some (map key df !!! i))))
                    (seq 0 (length (map key df))))
  = List.filter (fun r => negb (has_rank key r)) df.
Proof.
  rewrite length_map, <- (take_filtered_positions (fun r => negb (has_rank key r)) df). f_equal.
  apply filter_ext_in. intros i Hi. rewrite lookup_total_map_key.
  apply in_seq in Hi. destruct (lookup_lt_is_Some_2 df i) as [x Hx]; [lia|].
  by rewrite Hx.
Qed.

Lemma ranked_positions_valid (df : list A) :
  Forall (fun i => is_Some (df !! i))
    (List.filter (fun i => bool_decide (is_Some (map key df !!! i)))
                 (seq 0 (length (map key df)))).
Proof.
  apply List.Forall_forall. intros i Hi. apply filter_In in Hi as [Hi _].
  apply in_seq in Hi. rewrite length_map in Hi. apply lookup_lt_is_Some_2. lia.
Qed.

(** The sorted frame: the rows that have a rank, in an order that is
    ascending in the rank, then the rows without one in their original
    order. *)
Lemma sort_values_spec (df : list A) :
  exists ranked_rows,
    sort_values argsort key df
      = ranked_rows ++ List.filter (fun r => negb (has_rank key r)) df /\
    ranked_rows ≡ₚ List.filter (has_rank key) df /\
    Sorted Z.le (omap key ranked_rows).
Proof using argsort_ok.
  unfold sort_values, nargsort. cbv zeta.
  rewrite omap_app, take_unranked_positions, omap_omap.
  set (non_nan_idx := List.filter _ (seq 0 (length (map key df)))).
  set (non_nans := omap id (map key df)).
  destruct (argsort_ok non_nans) as [Hperm Hsorted].
  assert (Hrows : forall j, non_nan_idx !! j ≫= (fun i => df !! i)
                            = List.filter (has_rank key) df !! j).
  { intros j. rewrite <- take_ranked_positions. fold non_nan_idx.
    symmetry. apply omap_lookup, ranked_positions_valid. }
  assert (Hkeys : forall j, non_nans !! j = List.filter (has_rank key) df !! j ≫= key).
  { intros j. unfold non_nans. rewrite omap_id_map, <- (omap_filter_is_Some key df).
    apply omap_lookup, Forall_filter_is_Some. }
  assert (Hlen : length non_nans = length (List.filter (has_rank key) df)).
  { unfold non_nans. rewrite omap_id_map, <- (omap_filter_is_Some key df).
    apply length_omap_all, Forall_filter_is_Some. }
  exists (omap (fun j => List.filter (has_rank key) df !! j) (argsort non_nans)).
  split; [|split].
  - f_equal. apply list_omap_ext. apply Forall2_same_length_lookup_2; [done|].
    intros j x y Hx Hy. rewrite Hx in Hy. injection Hy as <-. apply Hrows.
  - by rewrite Hperm, Hlen, take_all_positions.
  - rewrite omap_omap.
    erewrite list_omap_ext; [exact Hsorted|].
    apply Forall2_same_length_lookup_2; [done|].
    intros j x y Hx Hy. rewrite Hx in Hy. injection Hy as <-. symmetry. apply Hkeys.
Qed.

End SortValues.

Lemma key_le_total (l : list Z) : base.Total (key_le l).
Proof. intros i j. unfold key_le. lia. Qed.

Lemma Sorted_take_keys (l : list Z) (idxs : list nat) :
  Sorted (key_le l) idxs ->
  Forall (fun i => i < length l) idxs ->
  Sorted Z.le (omap (fun i => l !! i) idxs).
Proof.
  induction 1 as [|i idxs Hs IH Hhd]; intros Hv; [constructor|].
  apply Forall_cons in Hv as [Hi Hv]. csimpl.
  destruct (lookup_lt_is_Some_2 l i Hi) as [x Hx]. rewrite Hx.
  constructor; [by apply IH|].
  destruct Hhd as [|j idxs' Hij]; [constructor|].
  apply Forall_cons in Hv as [Hj _]. csimpl.
  destruct (lookup_lt_is_Some_2 l j Hj) as [y Hy]. rewrite Hy.
  constructor. unfold key_le in Hij.
  by rewrite (list_lookup_total_correct l i x Hx), (list_lookup_total_correct l j y Hy) in Hij.
Qed.

Lemma merge_sort_positions (l : list Z) (idxs : list nat) :
  idxs ≡ₚ seq 0 (length l) ->
  merge_sort (key_le l) idxs ≡ₚ seq 0 (length l) /\
  Sorted Z.le (omap (fun i => l !! i) (merge_sort (key_le l) idxs)).
Proof.
  intros Hp. split.
  - by rewrite merge_sort_Permutation.
  - apply Sorted_take_keys.
    + apply (@Sorted_merge_sort _ (key_le l) _ (key_le_total l)).
    + rewrite merge_sort_Permutation, Hp. apply List.Forall_forall. intros i Hi.
      apply in_seq in Hi. lia.
Qed.

Lemma stable_argsort_spec : argsort_spec stable_argsort.
Proof. intros l. by apply merge_sort_positions. Qed.

Lemma unstable_argsort_spec : argsort_spec unstable_argsort.
Proof. intros l. apply merge_sort_positions. apply reverse_Permutation. Qed.



(** The spec's ordering example: ranks {A: 0, B: 1}, C unranked. *)
Example sort_values_scenario :
  sort_values stable_argsort (fun r => ({[ "A" := 0%Z; "B" := 1%Z ]} : gmap string Z) !! r)
              ["C"; "B"; "D"; "A"]
  = ["A"; "B"; "C"; "D"].
Proof. vm_compute. reflexivity. Qed.


(* ===================================================================== *)
(** ** Rate and Percent columns of the map frame *)
(* ===================================================================== *)

(** Rounding a non-negative mantissa never gives NaN. *)
Section RoundingNotNan.
Variables prec emax : Z.

Lemma shr_1_nonneg (mrs : shr_record) :
  (0 <= shr_m mrs)%Z -> (0 <= shr_m (shr_1 mrs))%Z.
Proof. destruct mrs as [[|[p|p|]|p] r s]; cbn; lia. Qed.

Lemma iter_shr_1_nonneg (p : positive) (mrs : shr_record) :
  (0 <= shr_m mrs)%Z -> (0 <= shr_m (SpecFloat.iter_pos shr_1 p mrs))%Z.
Proof.
  revert mrs. induction p as [p IH|p IH|]; intros mrs H; cbn [SpecFloat.iter_pos].
  - by apply IH, IH, shr_1_nonneg.
  - by apply IH, IH.
  - by apply shr_1_nonneg.
Qed.

Lemma shr_fexp_nonneg (m e : Z) (l : location) :
  (0 <= m)%Z -> (0 <= shr_m (shr_fexp prec emax m e l).1)%Z.
Proof.
  intros Hm. unfold shr_fexp, shr.
  assert (H0 : (0 <= shr_m (shr_record_of_loc m l))%Z) by (by destruct l as [|[]]).
  destruct (_ - e)%Z; cbn [fst]; [done| |done]. by apply iter_shr_1_nonneg.
Qed.

Lemma round_nearest_even_nonneg (mx : Z) (lx : location) :
  (0 <= mx)%Z -> (0 <= round_nearest_even mx lx)%Z.
Proof. intros H. destruct lx as [|[]]; cbn; [done| |done|lia]. destruct (Z.even mx); lia. Qed.

Lemma binary_round_aux_not_nan (sx : bool) (mx ex : Z) (lx : location) :
  (0 <= mx)%Z -> binary_round_aux prec emax sx mx ex lx <> S754_nan.
Proof.
  intros Hm. unfold binary_round_aux.
  pose proof (shr_fexp_nonneg mx ex lx Hm) as H1.
  destruct (shr_fexp prec emax mx ex lx) as [mrs' e']. cbn [fst] in H1.
  pose proof (shr_fexp_nonneg _ e' loc_Exact
                (round_nearest_even_nonneg _ (loc_of_shr_record mrs') H1)) as H2.
  destruct (shr_fexp prec emax _ e' loc_Exact) as [mrs'' e'']. cbn [fst] in H2.
  destruct (shr_m mrs'') as [|m|m]; [done| |lia].
  by destruct (_ <=? _)%Z.
Qed.

End RoundingNotNan.

Lemma isna_false (x : float) : x <> S754_nan -> F64.isna x = false.
Proof. by destruct x. Qed.

(** [Rate * 100] is missing exactly when [Rate] is. *)
Lemma percent_isna (r : float) : F64.isna (F64.mul r (F64.of_Z 100)) = F64.isna r.
Proof.
  destruct r as [s|s| |s m e]; try done.
  change (F64.of_Z 100) with (S754_finite false 7036874417766400 (-46)).
  unfold F64.mul, SFmul. apply isna_false, binary_round_aux_not_nan. lia.
Qed.

Lemma In_sort_values (argsort : list Z -> list nat) {A} (key : A -> option Z)
    (df : list A) (r : A) :
  In r (sort_values argsort key df) -> In r df.
Proof.
  unfold sort_values. rewrite <- !list_elem_of_In, list_elem_of_omap.
  intros (i & _ & Hi). by eapply list_elem_of_lookup_2.
Qed.

Lemma In_merge_lat_lon (df_rates : list RatesRow)
    (geo : list (string * option float * option float)) (m : MapRow) :
  In m (merge_lat_lon df_rates geo) -> In (m_rates m) df_rates.
Proof.
  unfold merge_lat_lon. rewrite in_flat_map. intros (r & Hr & Hm).
  destruct (List.filter _ geo) as [|g gs].
  - destruct Hm as [<-|[]]. done.
  - apply in_map_iff in Hm as (g' & <- & _). done.
Qed.

(** C8 (as amended).  Every row of the frame [return_data_for_map]
    returns has a [Rate] column.  For a special dimension it has no
    [Percent] column.  For any other dimension it has both columns, with
    [Percent = Rate * 100], so that [Percent] is populated exactly when
    [Rate] is. *)
Theorem return_data_for_map_rate_percent (argsort : list Z -> list nat) (config : Config)
    (dimension org_level : string) (measure_dict : gmap string (gmap string Roles))
    (year : string) (rows : list MapRow) :
  return_data_for_map argsort config dimension org_level measure_dict year = ok rows ->
  Forall (fun r =>
      if str_in dimension (special_dimensions config)
      then rates_Percent (m_rates r) = None
      else exists percent,
             rates_Percent (m_rates r) = Some percent /\
             percent = F64.mul (rates_Rate (m_rates r)) (F64.of_Z 100) /\
             F64.isna percent = F64.isna (rates_Rate (m_rates r)))
    rows.
Proof.
  unfold return_data_for_map. intros H.
  destruct (getitem_items (data_source config) year) as [e|df]; [discriminate H|].
  cbn [bind] in H.
  set (filtered := filter_for_measure_and_level _ dimension org_level) in H.
  destruct (str_in dimension (special_dimensions config)).
  - destruct (join_pop_data config filtered year) as [e|joined]; [discriminate H|].
    cbn [bind ok] in H. injection H as <-.
    apply List.Forall_forall. intros r Hr.
    apply In_sort_values, In_merge_lat_lon, in_map_iff in Hr as (j & <- & _). done.
  - destruct (get_rates filtered dimension measure_dict org_level) as [e|pivoted];
      [discriminate H|].
    cbn [bind ok] in H. injection H as <-.
    apply List.Forall_forall. intros r Hr.
    apply In_sort_values, In_merge_lat_lon, in_map_iff in Hr as (p & <- & _).
    cbn [rates_Percent rates_Rate add_Percent pv_Percent pv_Rate].
    eexists. split; [reflexivity|]. split; [reflexivity|]. apply percent_isna.
Qed.

Lemma return_data_for_map_rate_percent_witness :
  exists rows,
    return_data_for_map stable_argsort Ex.config_smoking Ex.smoking Ex.region
      Ex.measure_dict2 "2022-23" = ok rows /\
    Forall (fun r =>
      if str_in Ex.smoking (special_dimensions Ex.config_smoking)
      then rates_Percent (m_rates r) = None
      else exists percent,
             rates_Percent (m_rates r) = Some percent /\
             percent = F64.mul (rates_Rate (m_rates r)) (F64.of_Z 100) /\
             F64.isna percent = F64.isna (rates_Rate (m_rates r)))
    rows.
Proof.
  eexists. split; [vm_compute; reflexivity|].
  apply (return_data_for_map_rate_percent stable_argsort Ex.config_smoking Ex.smoking
           Ex.region Ex.measure_dict2 "2022-23").
  vm_compute. reflexivity.
Defined.

(** C8, counterexample.  The spec's own scenario (Smoker 10, Non-smoker
    90): the one row of the map frame has [Rate] 0.1 and [Percent] 10,
    both populated. *)
Lemma return_data_for_map_rate_and_percent :
  exists r,
    return_data_for_map stable_argsort Ex.config_smoking Ex.smoking Ex.region
      Ex.measure_dict2 "2022-23" = ok [r] /\
    rates_Rate (m_rates r) = F64.div (F64.of_Z 1) (F64.of_Z 10) /\
    rates_Percent (m_rates r) = Some (F64.of_Z 10) /\
    F64.isna (rates_Rate (m_rates r)) = false /\
    F64.isna (F64.of_Z 10) = false.
Proof. eexists. split; [vm_compute; reflexivity|]. vm_compute. done. Qed.

(* ===================================================================== *)
(** ** Sorted distinct values *)
(* ===================================================================== *)

Section SortedUnique.
Context {A : Type} (cmp : A -> A -> comparison).
Hypothesis cmp_eq : forall x y, cmp x y = Eq -> x = y.
Hypothesis cmp_refl : forall x, cmp x x = Eq.
Hypothesis cmp_antisym : forall x y, cmp x y = CompOpp (cmp y x).
Hypothesis cmp_trans : forall x y z, cmp x y = Lt -> cmp y z = Lt -> cmp x z = Lt.

Lemma In_insert_uniq (x y : A) (l : list A) :
  In y (insert_uniq cmp x l) <-> y = x \/ In y l.
Proof using cmp_eq.
  induction l as [|z l IH]; cbn [insert_uniq].
  - cbn. intuition.
  - destruct (cmp x z) eqn:Hc.
    + apply cmp_eq in Hc as ->. cbn. intuition.
    + cbn. intuition.
    + cbn [In]. rewrite IH. intuition.
Qed.

Lemma In_sorted_unique (y : A) (l : list A) :
  In y (sorted_unique cmp l) <-> In y l.
Proof using cmp_eq.
  unfold sorted_unique. induction l as [|x l IH]; [done|].
  cbn [fold_right In]. rewrite In_insert_uniq, IH. intuition.
Qed.

Lemma StronglySorted_insert_uniq (x : A) (l : list A) :
  StronglySorted (fun a b => cmp a b = Lt) l ->
  StronglySorted (fun a b => cmp a b = Lt) (insert_uniq cmp x l).
Proof using cmp_eq cmp_antisym cmp_trans.
  induction 1 as [|z l Hl IH Hz]; cbn [insert_uniq].
  - repeat constructor.
  - destruct (cmp x z) eqn:Hc.
    + by constructor.
    + constructor; [by constructor|]. constructor; [done|].
      eapply Forall_impl; [exact Hz|]. intros b Hb. by eapply cmp_trans.
    + constructor; [done|]. apply List.Forall_forall. intros b Hb.
      apply In_insert_uniq in Hb as [->|Hb].
      * rewrite cmp_antisym, Hc. done.
      * by eapply (proj1 (List.Forall_forall _ _) Hz).
Qed.

Lemma StronglySorted_sorted_unique (l : list A) :
  StronglySorted (fun a b => cmp a b = Lt) (sorted_unique cmp l).
Proof using cmp_eq cmp_antisym cmp_trans.
  unfold sorted_unique. induction l as [|x l IH]; [constructor|].
  cbn [fold_right]. by apply StronglySorted_insert_uniq.
Qed.

Lemma NoDup_sorted_unique (l : list A) : List.NoDup (sorted_unique cmp l).
Proof using cmp_eq cmp_refl cmp_antisym cmp_trans.
  pose proof (StronglySorted_sorted_unique l) as H.
  induction H as [|x l' Hl IH Hx]; constructor; [|done].
  intros Hin. apply (proj1 (List.Forall_forall _ _) Hx) in Hin.
  rewrite cmp_refl in Hin. done.
Qed.

End SortedUnique.

Lemma ascii_compare_trans (a b c : ascii) :
  Ascii.compare a b = Lt -> Ascii.compare b c = Lt -> Ascii.compare a c = Lt.
Proof. unfold Ascii.compare. rewrite !N.compare_lt_iff. lia. Qed.

Lemma string_compare_trans (x y z : string) :
  String.compare x y = Lt -> String.compare y z = Lt -> String.compare x z = Lt.
Proof.
  revert y z. induction x as [|a x IH]; intros [|b y] [|c z]; cbn; try done.
  destruct (Ascii.compare a b) eqn:Hab; [|idtac|done].
  - apply Ascii.compare_eq_iff in Hab as ->.
    destruct (Ascii.compare b c); [by apply IH|done|done].
  - intros _. destruct (Ascii.compare b c) eqn:Hbc; [|idtac|done].
    + apply Ascii.compare_eq_iff in Hbc as <-. by rewrite Hab.
    + by rewrite (ascii_compare_trans a b c).
Qed.

Lemma compare_pair_eq (a b : string * string) : compare_pair a b = Eq -> a = b.
Proof.
  destruct a as [a1 a2], b as [b1 b2]. unfold compare_pair. cbn [fst snd].
  destruct (String.compare a1 b1) eqn:H1; [|done|done].
  intros H2. apply String.compare_eq_iff in H1, H2. by subst.
Qed.

Lemma compare_pair_refl (a : string * string) : compare_pair a a = Eq.
Proof. unfold compare_pair. by rewrite !compare_refl. Qed.

Lemma compare_pair_antisym (a b : string * string) :
  compare_pair a b = CompOpp (compare_pair b a).
Proof.
  unfold compare_pair. rewrite (String.compare_antisym a.1 b.1).
  destruct (String.compare b.1 a.1); cbn; [apply String.compare_antisym|done|done].
Qed.

Lemma compare_pair_trans (a b c : string * string) :
  compare_pair a b = Lt -> compare_pair b c = Lt -> compare_pair a c = Lt.
Proof.
  unfold compare_pair.
  destruct (String.compare a.1 b.1) eqn:Hab; [|idtac|done].
  - apply String.compare_eq_iff in Hab. rewrite Hab.
    destruct (String.compare b.1 c.1); [apply string_compare_trans|done|done].
  - intros _. destruct (String.compare b.1 c.1) eqn:Hbc; [|idtac|done].
    + apply String.compare_eq_iff in Hbc. rewrite <- Hbc, Hab. done.
    + by rewrite (string_compare_trans _ _ _ Hab Hbc).
Qed.

(* ===================================================================== *)
(** ** More on [get_rates] *)
(* ===================================================================== *)

Lemma str_in_In (x : string) (xs : list string) : str_in x xs = true <-> In x xs.
Proof.
  unfold str_in. rewrite existsb_exists. split.
  - intros (y & Hy & He). apply String.eqb_eq in He. by subst.
  - intros H. exists x. split; [done|]. apply String.eqb_refl.
Qed.

Lemma In_sorted_names (x : string) (l : list string) :
  In x (sorted_unique String.compare l) <-> In x l.
Proof. apply In_sorted_unique. apply String.compare_eq_iff. Qed.

Lemma str_in_sorted_names (x : string) (l : list string) :
  str_in x (sorted_unique String.compare l) = str_in x l.
Proof.
  destruct (str_in x l) eqn:H.
  - apply str_in_In, In_sorted_names, str_in_In, H.
  - destruct (str_in x (sorted_unique _ l)) eqn:H'; [|done].
    apply (proj1 (str_in_In _ _)), (proj1 (In_sorted_names _ _)) in H'.
    apply (proj2 (str_in_In _ _)) in H'. congruence.
Qed.

Lemma cell_map (f : string -> float) (columns : list string) (m : string) :
  In m columns -> cell (map (fun c => (c, f c)) columns) m = ok (f m).
Proof.
  induction columns as [|c columns IH]; [done|]. intros Hin. cbn [map cell].
  destruct (String.eqb_spec m c) as [->|Hne]; [done|].
  destruct Hin as [->|Hin]; [done|]. by apply IH.
Qed.

Lemma select_map (f : string -> float) (columns measures : list string) :
  (forall m, In m measures -> In m columns) ->
  select (map (fun c => (c, f c)) columns) measures = ok (map f measures).
Proof.
  induction measures as [|m ms IH]; intros H; [done|]. cbn [select map].
  rewrite cell_map by (apply H; by left). cbn [bind ok].
  rewrite IH by (intros m' Hm'; apply H; by right). done.
Qed.

Lemma select_rows_map (f : string -> string -> float) (columns measures index : list string) :
  (forall m, In m measures -> In m columns) ->
  select_rows (map (fun o => (o, map (fun c => (c, f o c)) columns)) index) measures
  = ok (map (fun o => map (f o) measures) index).
Proof.
  intros H. induction index as [|o index IH]; [done|]. cbn [map select_rows].
  rewrite select_map by done. cbn [bind ok]. rewrite IH. done.
Qed.





Lemma find_ext' {A} (f g : A -> bool) (l : list A) :
  (forall x, f x = g x) -> List.find f l = List.find g l.
Proof. intros H. induction l as [|x l IH]; [done|]. cbn. by rewrite H, IH. Qed.

Lemma find_app' {A} (f : A -> bool) (l1 l2 : list A) :
  List.find f (l1 ++ l2)
  = match List.find f l1 with Some x => Some x | None => List.find f l2 end.
Proof. induction l1 as [|x l1 IH]; [done|]. cbn. by destruct (f x). Qed.

(** The first configured measure that is not a column of the pivoted
    frame stops [get_rates]: the numerator list is looked up first. *)
Lemma get_rates_first_missing (df : list Row) (dimension : string)
    (measure_dict : gmap string (gmap string Roles)) (org_level : string)
    (by_level : gmap string Roles) (roles : Roles) (m : string) :
  has_duplicate_entries df = false ->
  measure_dict !! org_level = Some by_level ->
  by_level !! dimension = Some roles ->
  List.find (fun m => negb (str_in m (map Measure df)))
            (numerator roles ++ denominator roles) = Some m ->
  get_rates df dimension measure_dict org_level = raise (KeyError m).
Proof.
  intros Hdup Hlvl Hdim Hfind.
  unfold get_rates, pivot, getitem, getitem_columns. rewrite Hdup, Hlvl.
  cbn [bind ok]. rewrite Hdim. cbn [bind ok pv_columns pv_rows].
  rewrite !(find_ext' _ (fun m => negb (str_in m (map Measure df))))
    by (intros x; by rewrite str_in_sorted_names).
  rewrite find_app' in Hfind.
  destruct (List.find _ (numerator roles)) as [m'|] eqn:Hn.
  - by injection Hfind as ->.
  - rewrite (select_rows_map (pivot_cell df)).
    + cbn [bind ok].
      rewrite (find_ext' _ (fun m => negb (str_in m (map Measure df))))
        by (intros x; by rewrite str_in_sorted_names).
      by rewrite Hfind.
    + intros m0 Hm0. apply In_sorted_names.
      pose proof (find_none _ _ Hn m0 Hm0) as Hx. cbn beta in Hx.
      apply negb_false_iff in Hx. by apply str_in_In.
Qed.

(** X2.  a configured measure without rows.  When the table is accepted
    by the pivot and the pair is configured, a measure of the numerator or
    denominator list that does not occur in the table's [Measure] column
    makes [get_rates] raise a [KeyError] that names a configured measure
    the table lacks: so does every non-empty measure list on an empty
    table.  ([Org_Name], the one other column of the pivoted frame, is
    taken not to be the name of a measure.) *)
Theorem get_rates_missing_measure (df : list Row) (dimension : string)
    (measure_dict : gmap string (gmap string Roles)) (org_level : string)
    (by_level : gmap string Roles) (roles : Roles) (m : string) :
  has_duplicate_entries df = false ->
  ~ In "Org_Name" (map Measure df ++ numerator roles ++ denominator roles) ->
  measure_dict !! org_level = Some by_level ->
  by_level !! dimension = Some roles ->
  In m (numerator roles ++ denominator roles) ->
  ~ In m (map Measure df) ->
  exists k,
    get_rates df dimension measure_dict org_level = raise (KeyError k) /\
    In k (numerator roles ++ denominator roles) /\
    ~ In k (map Measure df).
Proof.
  intros Hdup _ Hlvl Hdim Hm Hno.
  destruct (List.find (fun m => negb (str_in m (map Measure df)))
                      (numerator roles ++ denominator roles)) as [k|] eqn:Hfind.
  - exists k. split; [by eapply get_rates_first_missing|].
    apply find_some in Hfind as [Hin Hk]. split; [done|].
    intros Hk'. apply str_in_In in Hk'. by rewrite Hk' in Hk.
  - pose proof (find_none _ _ Hfind m Hm) as Hx. cbn beta in Hx.
    apply negb_false_iff, str_in_In in Hx. done.
Qed.

Lemma get_rates_missing_measure_witness :
  exists k,
    get_rates [] Ex.smoking Ex.measure_dict2 Ex.region = raise (KeyError k) /\
    In k (["Smoker"] ++ ["Smoker"; "Non-smoker"]) /\
    ~ In k (map Measure []).
Proof.
  apply (get_rates_missing_measure [] Ex.smoking Ex.measure_dict2 Ex.region
           {[ Ex.smoking := mkRoles ["Smoker"] ["Smoker"; "Non-smoker"] ]}
           (mkRoles ["Smoker"] ["Smoker"; "Non-smoker"]) "Smoker").
  - reflexivity.
  - cbn. intuition discriminate.
  - vm_compute. reflexivity.
  - vm_compute. reflexivity.
  - cbn. tauto.
  - cbn. tauto.
Defined.

Lemma select_rows_length (rows : list (string * list (string * float)))
    (measures : list string) (xss : list (list float)) :
  select_rows rows measures = ok xss -> length xss = length rows.
Proof.
  revert xss. induction rows as [|[o cells] rows IH]; intros xss H.
  - by injection H as <-.
  - cbn [select_rows] in H. destruct (select cells measures) as [e|xs]; [done|].
    cbn [bind] in H. destruct (select_rows rows measures) as [e|xss']; [done|].
    cbn [bind ok] in H. injection H as <-. cbn. by rewrite (IH xss').
Qed.

Lemma getitem_columns_length (df_pivoted : Pivoted) (measures : list string)
    (xss : list (list float)) :
  getitem_columns df_pivoted measures = ok xss -> length xss = length (pv_rows df_pivoted).
Proof.
  unfold getitem_columns. destruct (List.find _ measures); [done|].
  apply select_rows_length.
Qed.

Lemma names_zip_with (rows : list (string * list (string * float))) (ns ds : list float) :
  length ns = length rows -> length ds = length rows ->
  map pv_Org_Name
      (zip_with (fun row nd => mkPivotRow row.1 row.2 (F64.div nd.1 nd.2) None)
                rows (zip ns ds))
  = map fst rows.
Proof.
  revert ns ds. induction rows as [|row rows IH]; intros ns ds Hn Hd; [done|].
  destruct ns as [|n ns]; [done|]. destruct ds as [|d ds]; [done|].
  cbn. f_equal. apply IH; cbn in *; lia.
Qed.

(** X3.  one row per organisation.  Whenever [get_rates] returns a
    frame, the frame has exactly one row for each organisation name of the
    table (none twice, none missing, none added), in ascending order of
    the names, and the table had no (organisation, measure) twice. *)
Theorem get_rates_one_row_per_organisation (df : list Row) (dimension : string)
    (measure_dict : gmap string (gmap string Roles)) (org_level : string)
    (rows : list PivotRow) :
  get_rates df dimension measure_dict org_level = ok rows ->
  List.NoDup (map pv_Org_Name rows) /\
  (forall o, In o (map pv_Org_Name rows) <-> In o (map Org_Name df)) /\
  StronglySorted (fun a b => String.compare a b = Lt) (map pv_Org_Name rows) /\
  has_duplicate_entries df = false.
Proof.
  unfold get_rates, pivot. intros H.
  destruct (has_duplicate_entries df); [done|]. cbn [bind ok] in H.
  destruct (getitem measure_dict org_level) as [e|by_level]; [done|]. cbn [bind] in H.
  destruct (getitem by_level dimension) as [e|roles]; [done|]. cbn [bind] in H.
  destruct (getitem_columns _ (numerator roles)) as [e|ns] eqn:Hn; [done|].
  cbn [bind] in H.
  destruct (getitem_columns _ (denominator roles)) as [e|ds] eqn:Hd; [done|].
  cbn [bind ok] in H. injection H as <-.
  apply getitem_columns_length in Hn, Hd. cbn [pv_rows] in *.
  rewrite names_zip_with by (by rewrite length_map). rewrite map_map. cbn [fst].
  rewrite map_id.
  split; [|split; [|split]]; [| | |done].
  - apply NoDup_sorted_unique;
      [apply String.compare_eq_iff | apply compare_refl
      | apply String.compare_antisym | apply string_compare_trans].
  - intros o. apply In_sorted_names.
  - apply StronglySorted_sorted_unique;
      [apply String.compare_eq_iff | apply String.compare_antisym
      | apply string_compare_trans].
Qed.

Lemma get_rates_one_row_per_organisation_witness :
  exists rows,
    get_rates [Ex.smoker 10; Ex.non_smoker 90] Ex.smoking Ex.measure_dict2 Ex.region = ok rows /\
    List.NoDup (map pv_Org_Name rows) /\
    (forall o, In o (map pv_Org_Name rows) <->
               In o (map Org_Name [Ex.smoker 10; Ex.non_smoker 90])) /\
    StronglySorted (fun a b => String.compare a b = Lt) (map pv_Org_Name rows) /\
    has_duplicate_entries [Ex.smoker 10; Ex.non_smoker 90] = false.
Proof.
  eexists. split; [vm_compute; reflexivity|].
  apply (get_rates_one_row_per_organisation [Ex.smoker 10; Ex.non_smoker 90]
           Ex.smoking Ex.measure_dict2 Ex.region).
  vm_compute. reflexivity.
Defined.

(** The three columns [get_rates] reads. *)
Lemma pivot_columns_only (df df' : list Row) :
  Forall2 (fun r r' => Org_Name r = Org_Name r' /\ Measure r = Measure r' /\
                       Value r = Value r') df df' ->
  pivot df = pivot df'.
Proof.
  intros H.
  assert (Hn : map Org_Name df = map Org_Name df').
  { induction H as [|r r' df df' (Ho & _ & _) _ IH]; [done|]. cbn. by rewrite Ho, IH. }
  assert (Hm : map Measure df = map Measure df').
  { clear Hn. induction H as [|r r' df df' (_ & Hm & _) _ IH]; [done|].
    cbn. by rewrite Hm, IH. }
  assert (Hdup : has_duplicate_entries df = has_duplicate_entries df').
  { clear Hn Hm. induction H as [|r r' df df' (Ho & Hme & _) Hrest IH]; [done|].
    cbn [has_duplicate_entries]. rewrite IH.
    f_equal. clear IH. induction Hrest as [|s s' df df' (Ho' & Hm' & _) _ IH]; [done|].
    cbn [existsb]. rewrite IH. unfold same_entry. by rewrite Ho, Hme, Ho', Hm'. }
  assert (Hcell : forall o m, pivot_cell df o m = pivot_cell df' o m).
  { intros o m. unfold pivot_cell.
    clear Hn Hm Hdup. induction H as [|r r' df df' (Ho & Hme & Hv) _ IH]; [done|].
    cbn [List.find]. rewrite Ho, Hme.
    destruct (String.eqb (Org_Name r') o && String.eqb (Measure r') m); [done|apply IH]. }
  unfold pivot. rewrite Hdup, Hn, Hm. destruct (has_duplicate_entries df'); [done|].
  do 2 f_equal. apply map_ext. intros o. f_equal. apply map_ext. intros m.
  by rewrite Hcell.
Qed.

(** X4.  [get_rates] and the other columns.  [get_rates] reads the
    columns [Org_Name], [Measure] and [Value] and nothing else: two tables
    that agree row by row on these three give the same result, whatever
    the rows' dimension, organisation level, code, year or coordinates.
    In particular it does not filter: it uses every row it is given. *)
Theorem get_rates_reads_three_columns (df df' : list Row) (dimension : string)
    (measure_dict : gmap string (gmap string Roles)) (org_level : string) :
  Forall2 (fun r r' => Org_Name r = Org_Name r' /\ Measure r = Measure r' /\
                       Value r = Value r') df df' ->
  get_rates df dimension measure_dict org_level
  = get_rates df' dimension measure_dict org_level.
Proof. intros H. unfold get_rates. by rewrite (pivot_columns_only df df' H). Qed.

Lemma get_rates_reads_three_columns_witness :
  get_rates [Ex.smoker 10; Ex.non_smoker 90] Ex.smoking Ex.measure_dict2 Ex.region
  = get_rates [set_lat_lon F64.nan F64.nan (set_Dimension (fun _ => "Other") (Ex.smoker 10));
               set_year "2022-23" (Ex.non_smoker 90)]
              Ex.smoking Ex.measure_dict2 Ex.region.
Proof.
  apply get_rates_reads_three_columns. repeat constructor.
Defined.

(* ===================================================================== *)
(** ** [make_values_consistant] *)
(* ===================================================================== *)

Lemma replace_exact_not_key (d : list (string * string)) (s : string) :
  is_key d s = false -> Re.replace_exact d s = s.
Proof.
  induction d as [|[k v] d IH]; [done|]. cbn. intros H.
  apply orb_false_elim in H as [-> H]. by apply IH.
Qed.

Lemma replace_exact_value (d : list (string * string)) (s : string) :
  is_key d s = true -> exists kv, In kv d /\ Re.replace_exact d s = kv.2.
Proof.
  induction d as [|[k v] d IH]; [done|]. cbn. intros H.
  destruct (String.eqb s k).
  - exists (k, v). split; [by left|done].
  - destruct (IH H) as (kv & Hin & He). exists kv. split; [by right|done].
Qed.

(** A replacement leaves no key of [d'] when its values are none and its
    argument was none. *)
Lemma replace_exact_normal (d d' : list (string * string)) (s : string) :
  forallb (fun kv => negb (is_key d' kv.2)) d = true ->
  is_key d' s = false ->
  is_key d' (Re.replace_exact d s) = false.
Proof.
  intros Hv Hs. destruct (is_key d s) eqn:Hk.
  - destruct (replace_exact_value d s Hk) as (kv & Hin & ->).
    rewrite forallb_forall in Hv. apply negb_true_iff. by apply Hv.
  - by rewrite replace_exact_not_key.
Qed.

Lemma replace_exact_no_key (d : list (string * string)) (s : string) :
  forallb (fun kv => negb (is_key d kv.2)) d = true ->
  is_key d (Re.replace_exact d s) = false.
Proof.
  intros Hv. destruct (is_key d s) eqn:Hk.
  - destruct (replace_exact_value d s Hk) as (kv & Hin & ->).
    rewrite forallb_forall in Hv. apply negb_true_iff. by apply Hv.
  - by rewrite replace_exact_not_key.
Qed.

(** What [make_values_consistant] does to one row. *)
Lemma make_values_consistant_rows (df : list Row) :
  make_values_consistant df = map consistent_row df.
Proof. unfold make_values_consistant. cbv zeta. by rewrite !map_map. Qed.

Lemma consistent_row_Dimension (r : Row) :
  Dimension (consistent_row r) = Re.replace_exact dimension_replace_dict (Dimension r).
Proof. unfold consistent_row. cbv zeta. by destruct (String.eqb _ _). Qed.

Lemma consistent_row_Measure (r : Row) :
  Measure (consistent_row r)
  = if String.eqb (Dimension (consistent_row r)) "DeprivationDecileAtBooking"
    then Re.replace_exact deprivation_replace_dict
           (Re.replace_exact measure_replace_dict (Measure r))
    else Re.replace_exact measure_replace_dict (Measure r).
Proof.
  rewrite consistent_row_Dimension. unfold consistent_row. cbv zeta.
  cbn [set_Dimension set_Measure Dimension Measure].
  by destruct (String.eqb _ _).
Qed.

Lemma consistent_row_other (r : Row) :
  consistent_row r
  = set_Measure (fun _ => Measure (consistent_row r))
      (set_Dimension (fun _ => Dimension (consistent_row r)) r).
Proof.
  unfold consistent_row. cbv zeta.
  cbn [set_Dimension set_Measure Dimension Measure].
  by destruct (String.eqb _ _).
Qed.

(** X5.  the vocabulary after [make_values_consistant].  The frame has the
    same rows in the same order, changed in the [Dimension] and [Measure]
    columns only; afterwards no row carries one of the three historical
    dimension labels or one of the three spelling variants of "Missing
    value", and no row of the deprivation-decile dimension carries a
    one-digit decile "2" .. "9". *)
Theorem make_values_consistant_vocabulary (df : list Row) :
  Forall2 (fun r r' =>
      r' = set_Measure (fun _ => Measure r') (set_Dimension (fun _ => Dimension r') r) /\
      is_key dimension_replace_dict (Dimension r') = false /\
      is_key measure_replace_dict (Measure r') = false /\
      (Dimension r' = "DeprivationDecileAtBooking" ->
       is_key deprivation_replace_dict (Measure r') = false))
    df (make_values_consistant df).
Proof.
  rewrite make_values_consistant_rows.
  induction df as [|r df IH]; constructor; [|done].
  split; [apply consistent_row_other|].
  rewrite consistent_row_Measure, consistent_row_Dimension.
  split; [by apply replace_exact_no_key|].
  destruct (String.eqb_spec (Re.replace_exact dimension_replace_dict (Dimension r))
                            "DeprivationDecileAtBooking") as [He|Hne].
  - split; [|intros _; by apply replace_exact_no_key].
    apply replace_exact_normal; [done|]. by apply replace_exact_no_key.
  - split; [by apply replace_exact_no_key|done].
Qed.

Lemma consistent_row_idempotent (r : Row) :
  consistent_row (consistent_row r) = consistent_row r.
Proof.
  rewrite (consistent_row_other (consistent_row r)).
  rewrite (consistent_row_Measure (consistent_row r)).
  rewrite (consistent_row_Dimension (consistent_row r)).
  assert (HD : Re.replace_exact dimension_replace_dict (Dimension (consistent_row r))
               = Dimension (consistent_row r)).
  { apply replace_exact_not_key. rewrite consistent_row_Dimension.
    by apply replace_exact_no_key. }
  rewrite HD.
  assert (HM : Re.replace_exact measure_replace_dict (Measure (consistent_row r))
               = Measure (consistent_row r)).
  { apply replace_exact_not_key. rewrite consistent_row_Measure.
    destruct (String.eqb _ _).
    - apply replace_exact_normal; [done|]. by apply replace_exact_no_key.
    - by apply replace_exact_no_key. }
  rewrite HM.
  assert (HM' : (if String.eqb (Dimension (consistent_row r)) "DeprivationDecileAtBooking"
                 then Re.replace_exact deprivation_replace_dict (Measure (consistent_row r))
                 else Measure (consistent_row r)) = Measure (consistent_row r)).
  { destruct (String.eqb (Dimension (consistent_row r)) _) eqn:He; [|done].
    apply replace_exact_not_key. rewrite consistent_row_Measure, He.
    by apply replace_exact_no_key. }
  rewrite HM'. destruct (consistent_row r). done.
Qed.

(** X6.  [make_values_consistant] is idempotent: a second application
    changes nothing. *)
Theorem make_values_consistant_idempotent (df : list Row) :
  make_values_consistant (make_values_consistant df) = make_values_consistant df.
Proof.
  rewrite !make_values_consistant_rows, map_map. apply map_ext.
  apply consistent_row_idempotent.
Qed.

(* ===================================================================== *)
(** ** Left joins: [join_lat_lon_data], [join_pop_data] *)
(* ===================================================================== *)

Section LeftJoin.
Context {B : Type} (key : B -> string).

(** With distinct keys on the right, at most one right row matches. *)
Lemma filter_unique_key (k : string) (rs : list B) :
  List.NoDup (map key rs) ->
  List.filter (fun b => String.eqb k (key b)) rs
  = match List.find (fun b => String.eqb k (key b)) rs with
    | Some b => [b]
    | None => []
    end.
Proof.
  induction rs as [|b rs IH]; [done|]. intros Hnd. cbn [map] in Hnd.
  apply List.NoDup_cons_iff in Hnd as [Hb Hnd]. cbn [List.filter List.find].
  destruct (String.eqb_spec k (key b)) as [->|Hne]; [|by apply IH].
  f_equal. clear IH Hnd. induction rs as [|c rs IH]; [done|].
  cbn [List.filter map In] in *. destruct (String.eqb_spec (key b) (key c)) as [He|Hn].
  - destruct Hb. by left.
  - apply IH. intros Hin. apply Hb. by right.
Qed.

Lemma left_join_unique {A C} (k : A -> string) (miss : A -> C) (hit : A -> B -> C)
    (rs : list B) (l : list A) :
  List.NoDup (map key rs) ->
  flat_map (fun r =>
    match List.filter (fun b => String.eqb (k r) (key b)) rs with
    | [] => [miss r]
    | bs => map (hit r) bs
    end) l
  = map (fun r =>
      match List.find (fun b => String.eqb (k r) (key b)) rs with
      | Some b => hit r b
      | None => miss r
      end) l.
Proof.
  intros Hnd.
  set (f := fun r : A => match List.filter (fun b => String.eqb (k r) (key b)) rs with
                         | [] => [miss r]
                         | bs => map (hit r) bs
                         end).
  induction l as [|r l IH]; [done|].
  change (flat_map f (r :: l)) with (f r ++ flat_map f l). rewrite IH.
  unfold f. rewrite filter_unique_key by done. cbn [map]. by destruct (List.find _ rs).
Qed.

Lemma left_join_length {A C} (k : A -> string) (miss : A -> C) (hit : A -> B -> C)
    (rs : list B) (l : list A) :
  length (flat_map (fun r =>
    match List.filter (fun b => String.eqb (k r) (key b)) rs with
    | [] => [miss r]
    | bs => map (hit r) bs
    end) l)
  = list_sum (map (fun r =>
      Nat.max 1 (length (List.filter (fun b => String.eqb (k r) (key b)) rs))) l).
Proof.
  set (f := fun r : A => match List.filter (fun b => String.eqb (k r) (key b)) rs with
                         | [] => [miss r]
                         | bs => map (hit r) bs
                         end).
  induction l as [|r l IH]; [done|].
  change (flat_map f (r :: l)) with (f r ++ flat_map f l).
  cbn [map]. rewrite length_app, IH.
  unfold f. destruct (List.filter _ rs) as [|b bs]; [done|].
  rewrite length_map. unfold list_sum. cbn [length fold_right]. lia.
Qed.

End LeftJoin.

(** X7.  the geo join with one reference row per code.  When no
    organisation code occurs twice in the locations file,
    [join_lat_lon_data] returns one row per input row, in the input's
    order: the row itself with the coordinates of its code, or with
    missing coordinates when the file does not have the code. *)
Theorem join_lat_lon_data_unique_codes (config : Config) (df : list Row) :
  List.NoDup (map org_code (locations_csv config)) ->
  join_lat_lon_data config df = map (with_location (locations_csv config)) df.
Proof.
  intros Hnd. unfold join_lat_lon_data.
  rewrite (left_join_unique org_code Org_Code
             (set_lat_lon F64.nan F64.nan)
             (fun r l => set_lat_lon (loc_latitude l) (loc_longitude l) r)) by done.
  done.
Qed.

Lemma join_lat_lon_data_unique_codes_witness :
  join_lat_lon_data Ex.config_two_years [Ex.nhs_london; Ex.trust]
  = map (with_location (locations_csv Ex.config_two_years)) [Ex.nhs_london; Ex.trust].
Proof.
  apply join_lat_lon_data_unique_codes. vm_compute. repeat constructor. by intros [].
Defined.

(** X8.  the geo join never drops a row.  Whatever the locations file
    holds, the frame [join_lat_lon_data] returns has, for each input row,
    as many rows as the file has rows for its code, and one row when it
    has none: never fewer rows than the input, and more when a code occurs
    twice in the file. *)
Theorem join_lat_lon_data_length (config : Config) (df : list Row) :
  length (join_lat_lon_data config df)
  = list_sum (map (fun r =>
      Nat.max 1 (length (List.filter (fun l => String.eqb (Org_Code r) (org_code l))
                                     (locations_csv config)))) df) /\
  length df <= length (join_lat_lon_data config df).
Proof.
  unfold join_lat_lon_data.
  rewrite (left_join_length org_code Org_Code
             (set_lat_lon F64.nan F64.nan)
             (fun r l => set_lat_lon (loc_latitude l) (loc_longitude l) r)).
  split; [done|].
  induction df as [|r df IH]; [done|]. unfold list_sum in *.
  cbn [map fold_right length]. lia.
Qed.

(** A code that the locations file lists twice doubles the row. *)
Example join_lat_lon_data_duplicate_code :
  length (join_lat_lon_data
            (mkConfig [] ∅ [] ∅
               [mkLocation "Y56" (F64.of_Z 51) (F64.of_Z 0);
                mkLocation "Y56" (F64.of_Z 52) (F64.of_Z 1)])
            [Ex.nhs_london]) = 2.
Proof. vm_compute. reflexivity. Qed.

Lemma NoDup_map_inj_on {A B} (f : A -> B) (l : list A) :
  (forall x y, In x l -> In y l -> f x = f y -> x = y) ->
  List.NoDup l -> List.NoDup (map f l).
Proof.
  intros Hinj Hnd. induction Hnd as [|x l Hx Hnd IH]; [constructor|].
  cbn [map]. constructor.
  - intros Hin. apply in_map_iff in Hin as (y & He & Hy).
    assert (y = x) as -> by (apply Hinj; [by right|by left|done]). done.
  - apply IH. intros a b Ha Hb. apply Hinj; by right.
Qed.

Lemma groupby_sum_keys (df_pop : list PopRow) :
  map (fun p => (pop_name p, pop_code p)) (groupby_sum df_pop)
  = sorted_unique compare_pair (map (fun p => (pop_name p, pop_code p)) df_pop).
Proof.
  unfold groupby_sum. rewrite map_map. cbn [pop_name pop_code].
  rewrite <- (map_id (sorted_unique _ _)) at 2. apply map_ext. by intros [n c].
Qed.

Lemma groupby_sum_keys_NoDup (df_pop : list PopRow) :
  List.NoDup (map (fun p => (pop_name p, pop_code p)) (groupby_sum df_pop)).
Proof.
  rewrite groupby_sum_keys. apply NoDup_sorted_unique;
    [apply compare_pair_eq | apply compare_pair_refl
    | apply compare_pair_antisym | apply compare_pair_trans].
Qed.

Lemma In_groupby_sum_keys (df_pop : list PopRow) (k : string * string) :
  In k (map (fun p => (pop_name p, pop_code p)) (groupby_sum df_pop))
  <-> In k (map (fun p => (pop_name p, pop_code p)) df_pop).
Proof. rewrite groupby_sum_keys. apply In_sorted_unique, compare_pair_eq. Qed.

(** X9.  the groups of the population table.  The aggregated table has
    exactly one row for each (name, code) pair of the sheet: no pair twice,
    none missing, none added, in ascending order of the pairs. *)
Theorem groupby_sum_groups (df_pop : list PopRow) :
  let keys := map (fun p => (pop_name p, pop_code p)) in
  List.NoDup (keys (groupby_sum df_pop)) /\
  (forall k, In k (keys (groupby_sum df_pop)) <-> In k (keys df_pop)) /\
  StronglySorted (fun a b => compare_pair a b = Lt) (keys (groupby_sum df_pop)).
Proof.
  cbv zeta. split; [apply groupby_sum_keys_NoDup|]. split.
  - apply In_groupby_sum_keys.
  - rewrite groupby_sum_keys. apply StronglySorted_sorted_unique;
      [apply compare_pair_eq | apply compare_pair_antisym | apply compare_pair_trans].
Qed.

Lemma groupby_sum_names_NoDup (df_pop : list PopRow) :
  (forall p q, In p df_pop -> In q df_pop ->
               pop_name p = pop_name q -> pop_code p = pop_code q) ->
  List.NoDup (map pop_name (groupby_sum df_pop)).
Proof.
  intros Hcode. pose proof (In_groupby_sum_keys df_pop) as Hin.
  rewrite <- (map_map (fun p => (pop_name p, pop_code p)) fst).
  apply NoDup_map_inj_on; [|apply groupby_sum_keys_NoDup].
  intros [n c] [n' c'] Hk Hk' He. cbn [fst] in He. subst n'.
  apply Hin, in_map_iff in Hk as (p & [= <- <-] & Hp).
  apply Hin, in_map_iff in Hk' as (q & [= Hn <-] & Hq).
  f_equal. symmetry. by apply Hcode.
Qed.

(** X10.  the population join with one code per name.  When the year's
    sheet gives every region name a single code, [join_pop_data] returns
    one row per input row, in the input's order: the row with the
    aggregated population row of its name (none when the name is not in
    the sheet) and [Rate = Value / Total]. *)
Theorem join_pop_data_one_code (config : Config) (df : list Row) (year : string)
    (df_pop : list PopRow) :
  pop_source config !! year = Some df_pop ->
  (forall p q, In p df_pop -> In q df_pop ->
               pop_name p = pop_name q -> pop_code p = pop_code q) ->
  join_pop_data config df year = ok (map (with_population (groupby_sum df_pop)) df).
Proof.
  intros Hpop Hcode. unfold join_pop_data, getitem. rewrite Hpop. cbn [bind ok].
  rewrite (left_join_unique pop_name Org_Name
             (fun r => (r, None)) (fun r p => (r, Some p)))
    by (by apply groupby_sum_names_NoDup).
  rewrite map_map. f_equal. apply map_ext. intros r. unfold with_population.
  by destruct (List.find _ (groupby_sum df_pop)).
Qed.

Lemma join_pop_data_one_code_witness :
  join_pop_data Ex.config_two_years [Ex.nhs_london; Ex.trust] "2022-23"
  = ok (map (with_population
               (groupby_sum [mkPopRow "London" "E40000003" (F64.of_Z 20000);
                             mkPopRow "London" "E40000003" (F64.of_Z 30000)]))
            [Ex.nhs_london; Ex.trust]).
Proof.
  apply join_pop_data_one_code; [vm_compute; reflexivity|].
  intros p q [<-|[<-|[]]] [<-|[<-|[]]] _; reflexivity.
Defined.

(** A name that the sheet lists under two codes doubles the row. *)
Example join_pop_data_two_codes :
  bind (join_pop_data
          (mkConfig [] {[ "2022-23" := [mkPopRow "London" "E1" (F64.of_Z 1);
                                        mkPopRow "London" "E2" (F64.of_Z 2)] ]} [] ∅ [])
          [Ex.row "Y56" "London" Ex.region Ex.babies "All" 500] "2022-23")
       (fun joined => ok (length joined)) = ok 2.
Proof. vm_compute. reflexivity. Qed.

(* ===================================================================== *)
(** ** The bar chart: [return_data_for_bar_chart] *)
(* ===================================================================== *)

Lemma In_make_values_consistant (r' : Row) (df : list Row) :
  In r' (make_values_consistant df) <-> exists r, In r df /\ r' = consistent_row r.
Proof.
  rewrite make_values_consistant_rows, in_map_iff. split; intros (r & H1 & H2); eauto.
Qed.

Lemma return_data_for_bar_chart_ok (config : Config)
    (dimension org_level location year : string) (df : list Row) :
  getitem_items (data_source config) year = ok df ->
  exists rows,
    return_data_for_bar_chart config dimension org_level location year = ok rows /\
    sublist rows (make_values_consistant (map_org_name df)) /\
    forall r, In r rows <->
      In r (make_values_consistant (map_org_name df)) /\
      Org_Name r = location /\ Dimension r = dimension /\ Org_Level r = org_level.
Proof.
  intros Hget. unfold return_data_for_bar_chart. rewrite Hget.
  cbn [bind]. eexists. split; [reflexivity|]. split.
  - etrans; [apply sublist_List_filter|].
    unfold filter_for_measure_and_level. etrans; apply sublist_List_filter.
  - intros r. unfold filter_for_measure_and_level.
    rewrite !filter_In, !String.eqb_eq. tauto.
Qed.

Lemma getitem_items_error {V} (d : list (string * V)) (k : string) (e : exn) :
  getitem_items d k = raise e -> e = KeyError k.
Proof.
  induction d as [|[k' v] d IH]; cbn; intros H.
  - by injection H as <-.
  - destruct (String.eqb k k'); [done|by apply IH].
Qed.

(** X11.  the rows of a bar chart.  For a year that is not configured
    [return_data_for_bar_chart] raises the [KeyError] of the year.
    Otherwise it returns, in their order, exactly those rows of the
    year's normalised table ([map_org_name], then
    [make_values_consistant]) whose organisation name, dimension and
    organisation level are the requested ones; each comparison is made on
    the normalised value. *)
Theorem return_data_for_bar_chart_rows (config : Config)
    (dimension org_level location year : string) :
  match getitem_items (data_source config) year with
  | inl e =>
      e = KeyError year /\
      return_data_for_bar_chart config dimension org_level location year = raise e
  | inr df =>
      exists rows,
        return_data_for_bar_chart config dimension org_level location year = ok rows /\
        sublist rows (make_values_consistant (map_org_name df)) /\
        forall r, In r rows <->
          In r (make_values_consistant (map_org_name df)) /\
          Org_Name r = location /\ Dimension r = dimension /\ Org_Level r = org_level
  end.
Proof.
  destruct (getitem_items (data_source config) year) as [e|df] eqn:Hget.
  - split; [by apply getitem_items_error in Hget|].
    unfold return_data_for_bar_chart. by rewrite Hget.
  - by apply return_data_for_bar_chart_ok.
Qed.

Lemma Org_Name_consistent_row (r : Row) : Org_Name (consistent_row r) = Org_Name r.
Proof. by rewrite consistent_row_other. Qed.

Lemma Org_Level_consistent_row (r : Row) : Org_Level (consistent_row r) = Org_Level r.
Proof. by rewrite consistent_row_other. Qed.

Lemma year_consistent_row (r : Row) : year (consistent_row r) = year r.
Proof. by rewrite consistent_row_other. Qed.

(** X12.  a location in its raw spelling.  The bar chart compares the
    location with the normalised organisation names, in which no key of
    [name_dict] occurs.  A location in which such a key occurs (for
    instance "LONDON COMMISSIONING REGION" itself) therefore matches no
    row: the chart is empty, whatever the data. *)
Theorem return_data_for_bar_chart_raw_location (config : Config)
    (dimension org_level location year : string) (df : list Row) (k v : string) :
  getitem_items (data_source config) year = ok df ->
  In (k, v) name_dict ->
  Re.search k location = true ->
  return_data_for_bar_chart config dimension org_level location year = ok [].
Proof.
  intros Hget Hk Hs.
  destruct (return_data_for_bar_chart_ok config dimension org_level location year df Hget)
    as (rows & -> & _ & Hin). f_equal.
  destruct rows as [|r rows]; [done|]. exfalso.
  destruct (proj1 (Hin r)) as (Hr & Hloc & _); [by left|].
  apply In_make_values_consistant in Hr as (r0 & Hr0 & ->).
  rewrite Org_Name_consistent_row in Hloc.
  unfold map_org_name in Hr0. apply in_map_iff in Hr0 as (r1 & <- & _).
  cbn [set_Org_Name Org_Name] in Hloc.
  pose proof (ReFacts.replace_regex_no_key name_dict ReFacts.name_dict_ok k v
                (Org_Name r1) Hk) as Hno.
  rewrite Hloc in Hno. congruence.
Qed.

Lemma return_data_for_bar_chart_raw_location_witness :
  return_data_for_bar_chart Ex.config_alias Ex.smoking "National" "ALL SUBMITTERS" "2022-23"
  = ok [].
Proof.
  apply (return_data_for_bar_chart_raw_location Ex.config_alias Ex.smoking "National"
           "ALL SUBMITTERS" "2022-23"
           [Ex.row "ALL" "ALL SUBMITTERS" "National" Ex.smoking "Smoker" 12]
           "ALL SUBMITTERS" "All Submitters").
  - vm_compute. reflexivity.
  - vm_compute. tauto.
  - vm_compute. reflexivity.
Defined.

(* ===================================================================== *)
(** ** More on the time series *)
(* ===================================================================== *)

Lemma return_data_for_time_series_empty (config : Config)
    (dimension org_level location : string) :
  data_source config = [] ->
  return_data_for_time_series config dimension org_level location
  = raise (ValueError "No objects to concatenate").
Proof. intros H. unfold return_data_for_time_series, load_all_years. by rewrite H. Qed.

(** X13.  how a time-series request ends.  Without a configured year the
    call raises the [ValueError] of [pd.concat].  With at least one year,
    a request for an ordinary dimension always returns a frame of rows;
    a request for a special dimension returns a frame of rates when
    [config.pop_source] has the last configured year and raises the
    [KeyError] of that year when it has not, whatever it has for the
    other years. *)
Theorem return_data_for_time_series_outcome (config : Config)
    (dimension org_level location : string) :
  (data_source config = [] ->
   return_data_for_time_series config dimension org_level location
   = raise (ValueError "No objects to concatenate")) /\
  (data_source config <> [] ->
   str_in dimension (special_dimensions config) = false ->
   exists rows,
     return_data_for_time_series config dimension org_level location
     = ok (SeriesRows rows)) /\
  (forall items last_year df_last,
     data_source config = items ++ [(last_year, df_last)] ->
     str_in dimension (special_dimensions config) = true ->
     match pop_source config !! last_year with
     | None =>
         return_data_for_time_series config dimension org_level location
         = raise (KeyError last_year)
     | Some _ =>
         exists rates,
           return_data_for_time_series config dimension org_level location
           = ok (SeriesRates rates)
     end).
Proof.
  split; [apply return_data_for_time_series_empty|]. split.
  - intros Hne Hs. destruct (data_source config) as [|item items] eqn:Hds; [done|].
    rewrite (time_series_rows config dimension org_level location item items Hs Hds).
    eauto.
  - intros items last_year df_last Hds Hs.
    rewrite (return_data_for_time_series_special config dimension org_level location
               items last_year df_last Hs Hds).
    unfold join_pop_data, getitem.
    destruct (pop_source config !! last_year); [|done]. cbn [bind ok]. eauto.
Qed.

(** X14.  the organisation level and the location of a special
    dimension.  For a special dimension the time series ignores the
    location, and a request at level "National" or "Provider" is answered
    as the request at level "NHS England (Region)". *)
Theorem return_data_for_time_series_special_level (config : Config)
    (dimension org_level location location' : string) :
  str_in dimension (special_dimensions config) = true ->
  return_data_for_time_series config dimension org_level location
  = return_data_for_time_series config dimension org_level location' /\
  return_data_for_time_series config dimension "National" location
  = return_data_for_time_series config dimension "NHS England (Region)" location /\
  return_data_for_time_series config dimension "Provider" location
  = return_data_for_time_series config dimension "NHS England (Region)" location.
Proof.
  intros Hs. unfold return_data_for_time_series. rewrite Hs. cbn [negb andb].
  repeat split.
Qed.

Lemma return_data_for_time_series_special_level_witness :
  return_data_for_time_series Ex.config_two_years Ex.babies "Provider" "London"
  = return_data_for_time_series Ex.config_two_years Ex.babies "Provider" "Midlands" /\
  return_data_for_time_series Ex.config_two_years Ex.babies "National" "London"
  = return_data_for_time_series Ex.config_two_years Ex.babies "NHS England (Region)" "London" /\
  return_data_for_time_series Ex.config_two_years Ex.babies "Provider" "London"
  = return_data_for_time_series Ex.config_two_years Ex.babies "NHS England (Region)" "London".
Proof.
  apply (return_data_for_time_series_special_level Ex.config_two_years Ex.babies
           "Provider" "London" "Midlands").
  vm_compute. reflexivity.
Defined.

Lemma In_concat_tagged (r : Row) (ds : list (string * list Row)) :
  In r (concat (map (fun item => map (set_year item.1) item.2) ds)) ->
  exists y, year r = Some y /\ In y (map fst ds).
Proof.
  rewrite in_concat. intros (rows & Hrows & Hr).
  apply in_map_iff in Hrows as ([y df] & <- & Hitem).
  apply in_map_iff in Hr as (r0 & <- & _).
  exists y. split; [done|]. apply in_map_iff. by exists (y, df).
Qed.

(** X15.  the rows of the time series of an ordinary dimension.  Every
    row of the frame has the requested location as its (normalised) name
    and the requested organisation level; its year is one of the
    configured years; and its dimension is the requested one as
    [make_values_consistant] renames it: the rows of a request for a
    historical label come back under the current label. *)
Theorem return_data_for_time_series_ordinary_rows (config : Config)
    (dimension org_level location : string) (rows : list Row) :
  str_in dimension (special_dimensions config) = false ->
  return_data_for_time_series config dimension org_level location = ok (SeriesRows rows) ->
  Forall (fun r =>
      Org_Name r = location /\ Org_Level r = org_level /\
      Dimension r = Re.replace_exact dimension_replace_dict dimension /\
      exists y, year r = Some y /\ In y (map fst (data_source config)))
    rows.
Proof.
  intros Hs H.
  destruct (data_source config) as [|item items] eqn:Hds.
  { by rewrite return_data_for_time_series_empty in H. }
  rewrite (time_series_rows config dimension org_level location item items Hs Hds) in H.
  injection H as <-. rewrite <- Hds.
  apply List.Forall_forall. intros r Hr.
  apply filter_In in Hr as [Hr Hloc]. apply String.eqb_eq in Hloc.
  apply In_make_values_consistant in Hr as (r1 & Hr1 & ->).
  unfold map_org_name in Hr1. apply in_map_iff in Hr1 as (r0 & <- & Hr0).
  unfold filter_for_measure_and_level in Hr0.
  apply filter_In in Hr0 as [Hr0 Hd]. apply filter_In in Hr0 as [Hr0 Hl].
  apply String.eqb_eq in Hd, Hl. apply In_concat_tagged in Hr0 as (y & Hy & Hin).
  split; [exact Hloc|].
  rewrite Org_Level_consistent_row, year_consistent_row, consistent_row_Dimension.
  cbn [set_Org_Name Org_Level year Dimension]. rewrite Hd.
  split; [exact Hl|]. split; [reflexivity|]. by exists y.
Qed.

Lemma return_data_for_time_series_ordinary_rows_witness :
  Forall (fun r =>
      Org_Name r = "All Submitters" /\ Org_Level r = "National" /\
      Dimension r = Re.replace_exact dimension_replace_dict "SmokingAtBooking" /\
      exists y, year r = Some y /\ In y (map fst (data_source Ex.config_alias)))
    [mkRow "ALL" "All Submitters" "National" Ex.smoking "Smoker" (F64.of_Z 10)
           (Some "2019-20") None None].
Proof.
  apply (return_data_for_time_series_ordinary_rows Ex.config_alias
           "SmokingAtBooking" "National" "All Submitters");
    vm_compute; reflexivity.
Defined.

Lemma filter_map_commute {A} (P : A -> bool) (f : A -> A) (l : list A) :
  (forall x, In x l -> P (f x) = P x) ->
  List.filter P (map f l) = map f (List.filter P l).
Proof.
  induction l as [|x l IH]; intros H; [done|]. cbn [map List.filter].
  rewrite H by (by left). rewrite IH by (intros y Hy; apply H; by right).
  by destruct (P x).
Qed.

Lemma filter_concat {A} (P : A -> bool) (ls : list (list A)) :
  List.filter P (concat ls) = concat (map (List.filter P) ls).
Proof.
  induction ls as [|l ls IH]; [done|]. cbn [concat map]. by rewrite List.filter_app, IH.
Qed.

Lemma filter_for_measure_and_level_map (f : Row -> Row) (df : list Row)
    (dimension org_level : string) :
  (forall r, In r df -> Org_Level (f r) = Org_Level r /\ Dimension (f r) = Dimension r) ->
  filter_for_measure_and_level (map f df) dimension org_level
  = map f (filter_for_measure_and_level df dimension org_level).
Proof.
  intros H. unfold filter_for_measure_and_level.
  rewrite (filter_map_commute (fun r => String.eqb (Org_Level r) org_level))
    by (intros r Hr; by rewrite (proj1 (H r Hr))).
  rewrite (filter_map_commute (fun r => String.eqb (Dimension r) dimension)); [done|].
  intros r Hr. apply filter_In in Hr as [Hr _]. by rewrite (proj2 (H r Hr)).
Qed.

Lemma filter_for_measure_and_level_concat (ls : list (list Row))
    (dimension org_level : string) :
  filter_for_measure_and_level (concat ls) dimension org_level
  = concat (map (fun l => filter_for_measure_and_level l dimension org_level) ls).
Proof.
  unfold filter_for_measure_and_level. rewrite !filter_concat, map_map. done.
Qed.

Lemma consistent_row_set_year (y : string) (r : Row) :
  consistent_row (set_year y r) = set_year y (consistent_row r).
Proof.
  unfold consistent_row. cbv zeta.
  cbn [set_year set_Dimension set_Measure Dimension].
  by destruct (String.eqb _ _).
Qed.

(** Tagging with the year commutes with the whole single-year pipeline. *)
Lemma bar_chart_rows_set_year (y : string) (df : list Row)
    (dimension org_level location : string) :
  bar_chart_rows (map (set_year y) df) dimension org_level location
  = map (set_year y) (bar_chart_rows df dimension org_level location).
Proof.
  unfold bar_chart_rows, map_org_name. rewrite !make_values_consistant_rows, !map_map.
  rewrite (map_ext (fun r => consistent_row (set_Org_Name _ (set_year y r)))
                   (fun r => set_year y (consistent_row
                                 (set_Org_Name (Re.replace_regex name_dict) r))))
    by (intros r; by rewrite <- consistent_row_set_year).
  rewrite <- (map_map (fun r => consistent_row (set_Org_Name _ r)) (set_year y)).
  rewrite filter_for_measure_and_level_map by done.
  by rewrite filter_map_commute.
Qed.

(** When the labels are current, filtering first or normalising first is
    the same. *)
Lemma filter_then_normalise (df : list Row) (dimension org_level : string) :
  (forall r, In r df -> is_key dimension_replace_dict (Dimension r) = false) ->
  make_values_consistant
    (map_org_name (filter_for_measure_and_level df dimension org_level))
  = filter_for_measure_and_level
      (make_values_consistant (map_org_name df)) dimension org_level.
Proof.
  intros H. unfold map_org_name. rewrite !make_values_consistant_rows, !map_map.
  rewrite filter_for_measure_and_level_map; [done|].
  intros r Hr. rewrite Org_Level_consistent_row, consistent_row_Dimension.
  cbn [set_Org_Name Org_Level Dimension]. split; [done|].
  apply replace_exact_not_key. by apply H.
Qed.

Lemma getitem_items_NoDup {V} (d : list (string * V)) (k : string) (v : V) :
  List.NoDup (map fst d) -> In (k, v) d -> getitem_items d k = ok v.
Proof.
  induction d as [|[k' v'] d IH]; [done|]. cbn [map fst]. intros Hnd Hin.
  apply List.NoDup_cons_iff in Hnd as [Hk Hnd]. cbn [getitem_items].
  destruct Hin as [[= -> ->]|Hin].
  - by rewrite String.eqb_refl.
  - destruct (String.eqb_spec k k') as [->|Hne]; [|by apply IH].
    destruct Hk. apply in_map_iff. by exists (k', v).
Qed.

(** X16.  the time series as a succession of bar charts.  For an ordinary
    dimension, when no row of any configured year carries a historical
    dimension label, the time series is the concatenation, in the order of
    [config.data_source], of the bar charts of the single years, each row
    tagged with its year.  (With a historical label in the data the two
    differ: the time series filters before it renames.) *)
Theorem return_data_for_time_series_as_bar_charts (config : Config)
    (dimension org_level location : string) :
  str_in dimension (special_dimensions config) = false ->
  data_source config <> [] ->
  List.NoDup (map fst (data_source config)) ->
  (forall item r, In item (data_source config) -> In r item.2 ->
                  is_key dimension_replace_dict (Dimension r) = false) ->
  Forall (fun item =>
      return_data_for_bar_chart config dimension org_level location item.1
      = ok (bar_chart_rows item.2 dimension org_level location))
    (data_source config) /\
  return_data_for_time_series config dimension org_level location
  = ok (SeriesRows
          (concat (map (fun item =>
                     map (set_year item.1)
                         (bar_chart_rows item.2 dimension org_level location))
                   (data_source config)))).
Proof.
  intros Hs Hne Hnd Hcanon. split.
  - apply List.Forall_forall. intros [y df] Hitem.
    unfold return_data_for_bar_chart, bar_chart_rows. cbn [fst snd].
    by rewrite (getitem_items_NoDup _ y df Hnd Hitem).
  - destruct (data_source config) as [|item items] eqn:Hds; [done|].
    rewrite (time_series_rows config dimension org_level location item items Hs Hds).
    rewrite <- Hds in *. do 2 f_equal.
    rewrite filter_then_normalise.
    + fold (bar_chart_rows
              (concat (map (fun item => map (set_year item.1) item.2) (data_source config)))
              dimension org_level location).
      clear. induction (data_source config) as [|[y df] ds IH]; [done|].
      cbn [map concat fst snd]. rewrite <- IH, <- bar_chart_rows_set_year.
      unfold bar_chart_rows, map_org_name.
      rewrite !make_values_consistant_rows, !map_app.
      unfold filter_for_measure_and_level. by rewrite !List.filter_app.
    + intros r Hr. apply in_concat in Hr as (rows & Hrows & Hr).
      apply in_map_iff in Hrows as (it & <- & Hit).
      apply in_map_iff in Hr as (r0 & <- & Hr0).
      cbn [set_year Dimension]. by eapply Hcanon.
Qed.

Lemma return_data_for_time_series_as_bar_charts_witness :
  Forall (fun item =>
      return_data_for_bar_chart Ex.config_smoking Ex.smoking Ex.region "X" item.1
      = ok (bar_chart_rows item.2 Ex.smoking Ex.region "X"))
    (data_source Ex.config_smoking) /\
  return_data_for_time_series Ex.config_smoking Ex.smoking Ex.region "X"
  = ok (SeriesRows
          (concat (map (fun item =>
                     map (set_year item.1) (bar_chart_rows item.2 Ex.smoking Ex.region "X"))
                   (data_source Ex.config_smoking)))).
Proof.
  apply return_data_for_time_series_as_bar_charts.
  - vm_compute. reflexivity.
  - vm_compute. discriminate.
  - vm_compute. repeat constructor. by intros [].
  - intros item r [<-|[]] [<-|[<-|[]]]; vm_compute; reflexivity.
Defined.

(* ===================================================================== *)
(** ** More on the region order *)
(* ===================================================================== *)

Lemma filter_partition_Permutation {A} (f : A -> bool) (l : list A) :
  List.filter f l ++ List.filter (fun x => negb (f x)) l ≡ₚ l.
Proof.
  induction l as [|x l IH]; [done|]. cbn [List.filter].
  destruct (f x); cbn [negb app].
  - by constructor.
  - rewrite <- Permutation_middle. by constructor.
Qed.

Lemma filter_all {A} (f : A -> bool) (l : list A) :
  (forall x, In x l -> f x = true) -> List.filter f l = l.
Proof.
  induction l as [|x l IH]; intros H; [done|]. cbn [List.filter].
  rewrite H by (by left). f_equal. apply IH. intros y Hy. apply H. by right.
Qed.

Lemma filter_none {A} (f : A -> bool) (l : list A) :
  (forall x, In x l -> f x = false) -> List.filter f l = [].
Proof.
  induction l as [|x l IH]; intros H; [done|]. cbn [List.filter].
  rewrite H by (by left). apply IH. intros y Hy. apply H. by right.
Qed.

(** X17.  the sort keeps the rows.  Whatever sort [argsort] is, as long
    as it orders the keys, the frame [sort_values] returns is a
    rearrangement of its argument: no row is lost and none is repeated.
    When no organisation of the frame has a rank (as at provider level,
    where [region_order] names regions) the frame comes back unchanged. *)
Theorem sort_values_keeps_rows (argsort : list Z -> list nat) {A : Type}
    (key : A -> option Z) (df : list A) :
  argsort_spec argsort ->
  sort_values argsort key df ≡ₚ df /\
  ((forall r, In r df -> key r = None) -> sort_values argsort key df = df).
Proof.
  intros Hspec. destruct (sort_values_spec argsort Hspec key df) as (ranked & -> & Hp & _).
  split.
  - rewrite Hp. apply filter_partition_Permutation.
  - intros Hnone.
    rewrite filter_none in Hp
      by (intros r Hr; unfold has_rank; rewrite (Hnone r Hr); apply bool_decide_false;
          by intros [? ?]).
    apply Permutation_nil_r in Hp as ->. cbn [app].
    apply filter_all. intros r Hr. unfold has_rank. rewrite (Hnone r Hr).
    apply negb_true_iff, bool_decide_false. by intros [? ?].
Qed.

Lemma sort_values_keeps_rows_witness :
  sort_values stable_argsort (fun r => ({[ "A" := 0%Z; "B" := 1%Z ]} : gmap string Z) !! r)
              ["C"; "B"; "D"; "A"] ≡ₚ ["C"; "B"; "D"; "A"] /\
  ((forall r, In r ["C"; "B"; "D"; "A"] ->
              ({[ "A" := 0%Z; "B" := 1%Z ]} : gmap string Z) !! r = None) ->
   sort_values stable_argsort (fun r => ({[ "A" := 0%Z; "B" := 1%Z ]} : gmap string Z) !! r)
               ["C"; "B"; "D"; "A"] = ["C"; "B"; "D"; "A"]).
Proof.
  exact (sort_values_keeps_rows stable_argsort
           (fun r : string => ({[ "A" := 0%Z; "B" := 1%Z ]} : gmap string Z) !! r)
           ["C"; "B"; "D"; "A"] stable_argsort_spec).
Defined.

Lemma key_injective {A} (key : A -> option Z) (df : list A) (a b : A) (k : Z) :
  List.NoDup (omap key df) -> In a df -> In b df ->
  key a = Some k -> key b = Some k -> a = b.
Proof.
  induction df as [|x df IH]; [done|]. csimpl. intros Hnd Ha Hb Hka Hkb.
  assert (Hin : forall c, In c df -> key c = Some k -> In k (omap key df)).
  { intros c Hc Hkc. apply list_elem_of_In, list_elem_of_omap.
    exists c. split; [by apply list_elem_of_In|done]. }
  destruct Ha as [->|Ha], Hb as [->|Hb]; [done| | |].
  - rewrite Hka in Hnd. apply List.NoDup_cons_iff in Hnd as [Hk _].
    destruct Hk. by eapply Hin.
  - rewrite Hkb in Hnd. apply List.NoDup_cons_iff in Hnd as [Hk _].
    destruct Hk. by eapply Hin.
  - apply IH; [|done..]. destruct (key x); [|done].
    by apply List.NoDup_cons_iff in Hnd as [_ ?].
Qed.

Lemma Sorted_by_key {A} (key : A -> option Z) (l : list A) :
  Forall (fun r => is_Some (key r)) l ->
  Sorted Z.le (omap key l) ->
  StronglySorted (fun a b => exists x y, key a = Some x /\ key b = Some y /\ (x <= y)%Z) l.
Proof.
  intros Hall Hs. apply Sorted_StronglySorted.
  { intros a b c (x & y & Hx & Hy & Hxy) (y' & z & Hy' & Hz & Hyz).
    exists x, z. rewrite Hy in Hy'. injection Hy' as <-. repeat split; [done..|lia]. }
  induction Hall as [|r l [x Hx] Hall IH]; [constructor|].
  csimpl in Hs. rewrite Hx in Hs. apply Sorted_inv in Hs as [Hs Hhd].
  constructor; [by apply IH|].
  destruct Hall as [|r' l' [y Hy] Hall']; [constructor|].
  csimpl in Hhd. rewrite Hy in Hhd. apply HdRel_inv in Hhd.
  constructor. by exists x, y.
Qed.

(** X18.  distinct ranks fix the order.  When the rows that have a rank
    have pairwise distinct ranks, every sort that orders the keys returns
    the same frame: the result does not depend on the kind of sort. *)
Theorem sort_values_distinct_ranks (argsort argsort' : list Z -> list nat) {A : Type}
    (key : A -> option Z) (df : list A) :
  argsort_spec argsort -> argsort_spec argsort' ->
  List.NoDup (omap key df) ->
  sort_values argsort key df = sort_values argsort' key df.
Proof.
  intros Hspec Hspec' Hnd.
  destruct (sort_values_spec argsort Hspec key df) as (l1 & -> & Hp1 & Hs1).
  destruct (sort_values_spec argsort' Hspec' key df) as (l2 & -> & Hp2 & Hs2).
  f_equal.
  assert (Hall : forall l, l ≡ₚ List.filter (has_rank key) df ->
                   Forall (fun r => In r df /\ is_Some (key r)) l).
  { intros l Hl. apply List.Forall_forall. intros r Hr.
    apply list_elem_of_In in Hr. rewrite Hl in Hr. apply list_elem_of_In, filter_In in Hr.
    destruct Hr as [Hr Hk]. split; [done|]. by apply bool_decide_eq_true in Hk. }
  pose proof (Hall l1 Hp1) as H1. pose proof (Hall l2 Hp2) as H2.
  eapply (StronglySorted_unique_strong
            (fun a b => exists x y, key a = Some x /\ key b = Some y /\ (x <= y)%Z)).
  - intros a b Ha Hb (x & y & Hx & Hy & Hxy) (y' & x' & Hy' & Hx' & Hyx).
    rewrite Hx in Hx'. rewrite Hy in Hy'. injection Hx' as <-. injection Hy' as <-.
    assert (x = y) as <- by lia.
    apply list_elem_of_In in Ha, Hb.
    apply (proj1 (List.Forall_forall _ _) H1) in Ha as [Ha _].
    apply (proj1 (List.Forall_forall _ _) H2) in Hb as [Hb _].
    by eapply key_injective.
  - apply Sorted_by_key; [|done]. eapply Forall_impl; [exact H1|]. by intros r [_ ?].
  - apply Sorted_by_key; [|done]. eapply Forall_impl; [exact H2|]. by intros r [_ ?].
  - by rewrite Hp1, Hp2.
Qed.

Lemma sort_values_distinct_ranks_witness :
  sort_values stable_argsort (fun r => ({[ "A" := 0%Z; "B" := 1%Z ]} : gmap string Z) !! r)
              ["C"; "B"; "D"; "A"]
  = sort_values unstable_argsort
      (fun r => ({[ "A" := 0%Z; "B" := 1%Z ]} : gmap string Z) !! r) ["C"; "B"; "D"; "A"].
Proof.
  apply sort_values_distinct_ranks;
    [exact stable_argsort_spec | exact unstable_argsort_spec |].
  vm_compute. repeat constructor; cbn; intuition discriminate.
Defined.

(* ===================================================================== *)
(** ** What the map frame depends on *)
(* ===================================================================== *)

(** X19.  the inputs of [return_data_for_map].  A year that is not a key
    of [config.data_source] raises the [KeyError] of the year, and so
    does, for a special dimension, a configured year that is not a key
    of [config.pop_source].  For a special dimension the result does not
    depend on [measure_dict]; for any other dimension it does not depend
    on [config.pop_source]. *)
Theorem return_data_for_map_inputs (argsort : list Z -> list nat) (config : Config)
    (dimension org_level : string) (measure_dict : gmap string (gmap string Roles))
    (year : string) :
  (forall e, getitem_items (data_source config) year = raise e ->
     return_data_for_map argsort config dimension org_level measure_dict year
     = raise (KeyError year)) /\
  (forall df, getitem_items (data_source config) year = ok df ->
     str_in dimension (special_dimensions config) = true ->
     pop_source config !! year = None ->
     return_data_for_map argsort config dimension org_level measure_dict year
     = raise (KeyError year)) /\
  (str_in dimension (special_dimensions config) = true ->
   forall measure_dict',
     return_data_for_map argsort config dimension org_level measure_dict year
     = return_data_for_map argsort config dimension org_level measure_dict' year) /\
  (str_in dimension (special_dimensions config) = false ->
   forall pop,
     return_data_for_map argsort config dimension org_level measure_dict year
     = return_data_for_map argsort (set_pop_source pop config) dimension org_level
         measure_dict year).
Proof.
  unfold return_data_for_map. repeat split.
  - intros e He. rewrite He. by rewrite (getitem_items_error _ _ _ He).
  - intros df Hdf Hs Hpop. rewrite Hdf, Hs. cbn [bind].
    unfold join_pop_data, getitem. by rewrite Hpop.
  - intros Hs measure_dict'. by rewrite Hs.
  - intros Hs pop. cbn [set_pop_source data_source special_dimensions region_order].
    rewrite Hs. done.
Qed.

(* ===================================================================== *)
(** ** [merge_total_submitters] *)
(* ===================================================================== *)

Lemma find_percentage (series_sum : list float -> float) (df_all : list Row)
    (total : float) (m : string) :
  List.find (fun mp : string * float => String.eqb m mp.1)
            (map (fun a => (Measure a, F64.div (Value a) total)) df_all)
  = option_map (fun a => (Measure a, F64.div (Value a) total))
               (List.find (fun a => String.eqb m (Measure a)) df_all).
Proof.
  induction df_all as [|a df_all IH]; [done|]. cbn [map List.find fst].
  by destruct (String.eqb m (Measure a)).
Qed.

(** X20.  the comparison marker.  For two frames that are not one and
    the same object, when no measure occurs twice in
    [df_all_submitters], the merged frame holds, in their order, the rows
    of [df_location] whose measure occurs in [df_all_submitters], each
    once, and drops the others.  A row's [Percentage] is the share of its
    measure among all submitters (value over the sum of all values) and
    its [All Submitters Value] is that share times the sum of the
    location's values. *)
Theorem merge_total_submitters_rows (series_sum : list float -> float)
    (df_location df_all_submitters : list Row) :
  List.NoDup (map Measure df_all_submitters) ->
  merge_total_submitters series_sum df_location df_all_submitters
  = map (fun l =>
           mkMergedRow l
             (submitters_share series_sum df_all_submitters (Measure l))
             (F64.mul (submitters_share series_sum df_all_submitters (Measure l))
                      (series_sum (map Value df_location))))
        (List.filter (fun l => str_in (Measure l) (map Measure df_all_submitters))
                     df_location).
Proof.
  intros Hnd. unfold merge_total_submitters. cbv zeta.
  set (total := series_sum (map Value df_all_submitters)).
  set (loc_total := series_sum (map Value df_location)). clearbody loc_total.
  set (percentage := map (fun a => (Measure a, F64.div (Value a) total)) df_all_submitters).
  assert (Hkeys : List.NoDup (map fst percentage)).
  { unfold percentage. by rewrite map_map. }
  induction df_location as [|l df IH]; [done|].
  cbn [flat_map List.filter]. rewrite map_app, IH.
  rewrite (filter_unique_key fst (Measure l) percentage Hkeys).
  unfold percentage at 1. rewrite (find_percentage series_sum).
  destruct (List.find (fun a => String.eqb (Measure l) (Measure a)) df_all_submitters)
    as [a|] eqn:Hfind.
  - pose proof (find_some _ _ Hfind) as [Ha He]. apply String.eqb_eq in He.
    rewrite (proj2 (str_in_In _ _)) by (rewrite He; by apply in_map).
    assert (Hshare : submitters_share series_sum df_all_submitters (Measure l)
                     = F64.div (Value a) total).
    { unfold submitters_share. by rewrite Hfind. }
    cbn [option_map map app fst snd]. by rewrite Hshare.
  - assert (Hno : str_in (Measure l) (map Measure df_all_submitters) = false).
    { destruct (str_in _ _) eqn:Hin; [|done]. apply str_in_In, in_map_iff in Hin.
      destruct Hin as (a & He & Ha).
      pose proof (find_none _ _ Hfind a Ha) as Hx. cbn beta in Hx.
      rewrite He, String.eqb_refl in Hx. done. }
    rewrite Hno. reflexivity.
Qed.

Lemma merge_total_submitters_rows_witness :
  merge_total_submitters F64.sum
    [Ex.smoker 10; Ex.row "Y56" "X" Ex.region Ex.smoking "Unknown" 3]
    [Ex.row "ALL" "All Submitters" "National" Ex.smoking "Smoker" 100;
     Ex.row "ALL" "All Submitters" "National" Ex.smoking "Non-smoker" 900]
  = map (fun l =>
           mkMergedRow l
             (submitters_share F64.sum
                [Ex.row "ALL" "All Submitters" "National" Ex.smoking "Smoker" 100;
                 Ex.row "ALL" "All Submitters" "National" Ex.smoking "Non-smoker" 900]
                (Measure l))
             (F64.mul
                (submitters_share F64.sum
                   [Ex.row "ALL" "All Submitters" "National" Ex.smoking "Smoker" 100;
                    Ex.row "ALL" "All Submitters" "National" Ex.smoking "Non-smoker" 900]
                   (Measure l))
                (F64.sum (map Value
                   [Ex.smoker 10; Ex.row "Y56" "X" Ex.region Ex.smoking "Unknown" 3]))))
        (List.filter
           (fun l => str_in (Measure l)
              (map Measure
                 [Ex.row "ALL" "All Submitters" "National" Ex.smoking "Smoker" 100;
                  Ex.row "ALL" "All Submitters" "National" Ex.smoking "Non-smoker" 900]))
           [Ex.smoker 10; Ex.row "Y56" "X" Ex.region Ex.smoking "Unknown" 3]).
Proof.
  apply merge_total_submitters_rows.
  vm_compute. repeat constructor; cbn; intuition discriminate.
Defined.

(** A measure of the location that all submitters do not have is dropped. *)
Example merge_total_submitters_drops :
  map (fun m => Measure (mg_row m))
      (merge_total_submitters F64.sum
         [Ex.smoker 10; Ex.row "Y56" "X" Ex.region Ex.smoking "Unknown" 3]
         [Ex.row "ALL" "All Submitters" "National" Ex.smoking "Smoker" 100;
          Ex.row "ALL" "All Submitters" "National" Ex.smoking "Non-smoker" 900])
  = ["Smoker"].
Proof. vm_compute. reflexivity. Qed.

(* ===================================================================== *)
(** ** The earlier [map_org_name] *)
(* ===================================================================== *)

Lemma create_maps_name_dict_ok : Re.dict_ok CreateMaps.name_dict = true.
Proof. vm_compute. reflexivity. Qed.

Lemma name_dict_extends :
  name_dict = CreateMaps.name_dict ++ [("ALL SUBMITTERS", "All Submitters")].
Proof. reflexivity. Qed.

Lemma replace_regex_extends (s : string) :
  Re.replace_regex name_dict s
  = Re.sub "ALL SUBMITTERS" "All Submitters" (Re.replace_regex CreateMaps.name_dict s).
Proof.
  rewrite (ReFacts.replace_regex_subs name_dict ReFacts.name_dict_ok).
  rewrite (ReFacts.replace_regex_subs CreateMaps.name_dict create_maps_name_dict_ok).
  rewrite name_dict_extends, fold_left_app. reflexivity.
Qed.

Lemma replace_regex_without_all_submitters (s : string) :
  Re.search "ALL SUBMITTERS" s = false ->
  Re.replace_regex name_dict s = Re.replace_regex CreateMaps.name_dict s.
Proof.
  intros H. rewrite replace_regex_extends. apply ReFacts.sub_id; [done|].
  apply ReFacts.replace_from_no_match; [|done].
  intros B v Hin. apply (ReFacts.dict_ok_pair name_dict ReFacts.name_dict_ok
                            "ALL SUBMITTERS" "All Submitters" B v).
  - rewrite name_dict_extends. apply in_or_app. right. by left.
  - rewrite name_dict_extends. apply in_or_app. by left.
Qed.

(** X21.  the two name normalisers.  The earlier [map_org_name] keeps
    every row as it is and writes the result to a new column
    [region_name]; the current one overwrites [Org_Name].  Row by row,
    the current name is the earlier [region_name] with "ALL SUBMITTERS"
    replaced by "All Submitters", and the two are equal for every name in
    which "ALL SUBMITTERS" does not occur. *)
Theorem map_org_name_variants (df : list Row) :
  map fst (CreateMaps.map_org_name df) = df /\
  Forall2 (fun r' rn =>
      Org_Name r' = Re.sub "ALL SUBMITTERS" "All Submitters" rn.2 /\
      (Re.search "ALL SUBMITTERS" (Org_Name rn.1) = false -> Org_Name r' = rn.2))
    (map_org_name df) (CreateMaps.map_org_name df).
Proof.
  unfold map_org_name, CreateMaps.map_org_name. split.
  - rewrite map_map. apply map_id.
  - induction df as [|r df IH]; constructor; [|done].
    cbn [set_Org_Name Org_Name fst snd]. split; [apply replace_regex_extends|].
    apply replace_regex_without_all_submitters.
Qed.

(* ===================================================================== *)
(** ** The special bar chart *)
(* ===================================================================== *)

Lemma in_per_thousand (joined : list JoinedRow) (df : list Row) (agg : list PopRow) :
  (forall j, In j joined <->
     In (j_row j) df /\
     j_Rate j = F64.div (Value (j_row j)) (j_Total (j_pop j)) /\
     match j_pop j with
     | Some p => In p agg /\ Org_Name (j_row j) = pop_name p
     | None => forall p, In p agg -> Org_Name (j_row j) <> pop_name p
     end) ->
  forall j, In j (map per_thousand joined) <->
    In (j_row j) df /\
    match j_pop j with
    | Some p =>
        In p agg /\ Org_Name (j_row j) = pop_name p /\
        j_Rate j = F64.mul (F64.div (Value (j_row j)) (Total p)) (F64.of_Z 1000)
    | None =>
        (forall p, In p agg -> Org_Name (j_row j) <> pop_name p) /\ j_Rate j = F64.nan
    end.
Proof.
  intros Hin j. rewrite in_map_iff. split.
  - intros (j0 & <- & Hj0). apply Hin in Hj0 as (Hr & HR & Ho).
    unfold per_thousand. cbn [j_row j_pop j_Rate]. split; [done|].
    destruct (j_pop j0) as [p|].
    + destruct Ho as [Hp He]. by rewrite HR.
    + split; [done|]. rewrite HR. cbn [j_Total]. by rewrite div_nan_r.
  - intros (Hr & Ho).
    exists (mkJoinedRow (j_row j) (j_pop j) (F64.div (Value (j_row j)) (j_Total (j_pop j)))).
    split.
    + destruct j as [r o R]. unfold per_thousand. cbn [j_row j_pop j_Rate] in *.
      destruct o as [p|].
      * destruct Ho as (_ & _ & ->). done.
      * destruct Ho as (_ & ->). cbn [j_Total]. by rewrite div_nan_r.
    + apply Hin. cbn [j_row j_pop j_Rate]. split; [done|]. split; [done|].
      destruct (j_pop j) as [p|]; tauto.
Qed.

(** X22.  the special bar chart.  [return_data_for_special_bar_chart]
    raises the [KeyError] of the year when the year is not a key of
    [config.data_source] or not a key of [config.pop_source].  Otherwise
    it returns the rows of the normalised table that have the requested
    dimension at the level "NHS England (Region)" (whatever the dimension
    is: it is not checked against the special dimensions), joined with
    the year's aggregated population: [Rate = (Value / Total) * 1000],
    missing for a name the population table does not have. *)
Theorem return_data_for_special_bar_chart_outcome (config : Config)
    (dimension year : string) :
  match getitem_items (data_source config) year, pop_source config !! year with
  | inr df, Some df_pop =>
      exists rows,
        return_data_for_special_bar_chart config dimension year = ok rows /\
        forall j, In j rows <->
          (In (j_row j) (make_values_consistant (map_org_name df)) /\
           Dimension (j_row j) = dimension /\
           Org_Level (j_row j) = "NHS England (Region)") /\
          match j_pop j with
          | Some p =>
              In p (groupby_sum df_pop) /\ Org_Name (j_row j) = pop_name p /\
              j_Rate j = F64.mul (F64.div (Value (j_row j)) (Total p)) (F64.of_Z 1000)
          | None =>
              (forall p, In p (groupby_sum df_pop) -> Org_Name (j_row j) <> pop_name p) /\
              j_Rate j = F64.nan
          end
  | _, _ =>
      return_data_for_special_bar_chart config dimension year = raise (KeyError year)
  end.
Proof.
  unfold return_data_for_special_bar_chart.
  destruct (getitem_items (data_source config) year) as [e|df] eqn:Hget.
  { by rewrite (getitem_items_error _ _ _ Hget). }
  cbn [bind].
  destruct (pop_source config !! year) as [df_pop|] eqn:Hpop.
  - set (filtered := filter_for_measure_and_level _ dimension "NHS England (Region)").
    destruct (in_join_pop_data config filtered year df_pop Hpop) as (joined & -> & Hin).
    cbn [bind ok]. eexists. split; [reflexivity|]. intros j.
    rewrite (in_per_thousand joined filtered (groupby_sum df_pop) Hin j).
    unfold filtered, filter_for_measure_and_level.
    rewrite !filter_In, !String.eqb_eq. tauto.
  - unfold join_pop_data, getitem. by rewrite Hpop.
Qed.

(** X23.  a map of an unconfigured dimension.  For a configured year and a
    dimension that is not special, when [measure_dict] has no entry for
    the (organisation level, dimension) pair, [return_data_for_map] raises
    and returns no frame, whatever the data: a [ValueError] when the
    filtered table cannot be reshaped, and otherwise the [KeyError] of the
    organisation level or, when the level is configured, of the
    dimension. *)
Theorem return_data_for_map_no_mapping (argsort : list Z -> list nat) (config : Config)
    (dimension org_level : string) (measure_dict : gmap string (gmap string Roles))
    (year : string) (df : list Row) :
  getitem_items (data_source config) year = ok df ->
  str_in dimension (special_dimensions config) = false ->
  measure_dict !! org_level ≫= (fun by_level => by_level !! dimension) = None ->
  exists e,
    return_data_for_map argsort config dimension org_level measure_dict year = raise e /\
    ((exists msg, e = ValueError msg) \/
     (measure_dict !! org_level = None /\ e = KeyError org_level) \/
     (is_Some (measure_dict !! org_level) /\ e = KeyError dimension)).
Proof.
  intros Hget Hs Hmd. unfold return_data_for_map. rewrite Hget, Hs. cbn [bind ok].
  rewrite (get_rates_raises_without_mapping _ _ _ _ Hmd).
  destruct (has_duplicate_entries _); cbn [bind raise]; eexists; (split; [reflexivity|]).
  - left. by eexists.
  - right. destruct (measure_dict !! org_level); [right|left]; eauto.
Qed.

Lemma return_data_for_map_no_mapping_witness :
  exists e,
    return_data_for_map stable_argsort Ex.config_smoking "Unknown" Ex.region
      Ex.measure_dict2 "2022-23" = raise e /\
    ((exists msg, e = ValueError msg) \/
     (Ex.measure_dict2 !! Ex.region = None /\ e = KeyError Ex.region) \/
     (is_Some (Ex.measure_dict2 !! Ex.region) /\ e = KeyError "Unknown")).
Proof.
  apply (return_data_for_map_no_mapping stable_argsort Ex.config_smoking "Unknown"
           Ex.region Ex.measure_dict2 "2022-23" [Ex.smoker 10; Ex.non_smoker 90]);
    vm_compute; reflexivity.
Defined.
